(** * Cricket auction backend: bidding state machine and connect snapshot

    A shallow embedding of [backend/main.py].  The module-level globals
    ([teams], [current_bid]), the two MongoDB collections and the connection
    manager's socket list are gathered into one explicit [State]; every
    endpoint is a function in a small state-and-exception monad over it.

    Conventions of the embedding:
    - Python [int] is [Z] (unbounded); [str] is [string]; [None]-or-[str]
      is [option string].
    - [teams] is a dict from team name to a one-key dict [{"budget": n}];
      it is modelled as [gmap string Z] (team name to budget).
    - A MongoDB collection is the list of its documents in insertion order,
      as [find({}, {"_id": 0})] returns them.  [insert_one] stores a
      document whose integers fit 64 bits and raises [OverflowError]
      otherwise.
    - [asyncio.create_task] needs a running event loop in the calling
      thread and raises [RuntimeError] without one.  Every REST endpoint is
      a plain [def], which FastAPI runs in a worker thread, where no loop
      runs; the endpoints therefore take the [Thread] they run in, and the
      routes are the endpoints run in a [Worker].
    - [await websocket.send_json(msg)] appends [(websocket, msg)] to the
      log of messages sent to single sockets.
    - Requests are served one after the other. *)

From stdpp Require Import gmap strings list fin_maps pretty.

Open Scope Z_scope.

(** ** Data model *)

(** [class Player(BaseModel)] and the documents of [players_collection]. *)
Record Player := {
  name : string;
  role : string;
  base_price : Z;
  image : string
}.

(** The dict [current_bid].  The documents of [db["results"]] are copies of
    this dict as it stands when [end_bidding] inserts it. *)
Record CurrentBid := {
  player : option string;
  highest_bid : Z;
  team : option string;
  is_active : bool
}.

Definition set_highest_bid (v : Z) (cb : CurrentBid) : CurrentBid :=
  {| player := player cb; highest_bid := v;
     team := team cb; is_active := is_active cb |}.

Definition set_team (v : option string) (cb : CurrentBid) : CurrentBid :=
  {| player := player cb; highest_bid := highest_bid cb;
     team := v; is_active := is_active cb |}.

Definition set_is_active (v : bool) (cb : CurrentBid) : CurrentBid :=
  {| player := player cb; highest_bid := highest_bid cb;
     team := team cb; is_active := v |}.

(** [{"player": None, "highest_bid": 0, "team": None, "is_active": False}] *)
Definition idle_bid : CurrentBid :=
  {| player := None; highest_bid := 0; team := None; is_active := false |}.

(** JSON messages pushed to sessions, one constructor per ["type"]. *)
Inductive Message :=
| players_update (players : list Player)
| budgets_update (budgets : gmap string Z)
| results_update (results : list CurrentBid)
| start_bidding_msg (player : option string) (highest_bid : Z)
| new_bid (player : option string) (highest_bid : Z) (team : string)
| end_bidding_msg (player : option string) (team : option string)
                  (highest_bid : Z)
| clear_data_msg.

(** A broadcast handed to [asyncio.create_task].  Its dict is built when the
    task is created, but ["budgets": teams] stores the shared [teams] dict
    itself, which is read only when the task runs. *)
Inductive Broadcast :=
| Bcast (m : Message)
| BcastBudgets.

Definition WebSocket := nat.

Record State := {
  teams : gmap string Z;
  current_bid : CurrentBid;
  players_collection : list Player;
  db_results : list CurrentBid;
  active_connections : list WebSocket;
  tasks : list Broadcast;
  sent : list (WebSocket * Message)
}.

(** What a scheduled broadcast sends once it runs in state [s]. *)
Definition deliver (s : State) (b : Broadcast) : Message :=
  match b with
  | Bcast m => m
  | BcastBudgets => budgets_update (teams s)
  end.

(** The dict an endpoint returns: [{"message": text}] or [{"error": text}]. *)
Inductive Response :=
| message (text : string)
| error (text : string).

Inductive Exn :=
| KeyError (key : string)
| RuntimeError
| OverflowError.

(** The thread an endpoint's code runs in: the thread of the event loop
    (a call made from a coroutine), or one of the worker threads FastAPI
    uses for plain [def] routes, in which no event loop is running. *)
Inductive Thread :=
| EventLoop
| Worker.

(** ** Handlers: state passing with exceptions *)

Inductive Outcome (A : Type) : Type :=
| Returned (a : A) (s : State)
| Raised (e : Exn) (s : State).
Arguments Returned {A} a s.
Arguments Raised {A} e s.

Definition Handler (A : Type) : Type := State → Outcome A.

#[global] Instance handler_ret : MRet Handler := λ A a s, Returned a s.

#[global] Instance handler_bind : MBind Handler := λ A B f m s,
  match m s with
  | Returned a s' => f a s'
  | Raised e s' => Raised e s'
  end.

Definition gets {A} (f : State → A) : Handler A := λ s, Returned (f s) s.

Definition raise {A} (e : Exn) : Handler A := λ s, Raised e s.

Definition set_teams (ts : gmap string Z) : Handler () := λ s,
  Returned () {| teams := ts; current_bid := current_bid s;
                 players_collection := players_collection s;
                 db_results := db_results s;
                 active_connections := active_connections s;
                 tasks := tasks s;
                 sent := sent s |}.

Definition set_current_bid (cb : CurrentBid) : Handler () := λ s,
  Returned () {| teams := teams s; current_bid := cb;
                 players_collection := players_collection s;
                 db_results := db_results s;
                 active_connections := active_connections s;
                 tasks := tasks s;
                 sent := sent s |}.

Definition set_players (ps : list Player) : Handler () := λ s,
  Returned () {| teams := teams s; current_bid := current_bid s;
                 players_collection := ps;
                 db_results := db_results s;
                 active_connections := active_connections s;
                 tasks := tasks s;
                 sent := sent s |}.

Definition set_results (rs : list CurrentBid) : Handler () := λ s,
  Returned () {| teams := teams s; current_bid := current_bid s;
                 players_collection := players_collection s;
                 db_results := rs;
                 active_connections := active_connections s;
                 tasks := tasks s;
                 sent := sent s |}.

(** [await websocket.send_json(m)]; the send is taken to succeed. *)
Definition send_json (websocket : WebSocket) (m : Message) : Handler () :=
  λ s,
  Returned () {| teams := teams s; current_bid := current_bid s;
                 players_collection := players_collection s;
                 db_results := db_results s;
                 active_connections := active_connections s;
                 tasks := tasks s;
                 sent := sent s ++ [(websocket, m)] |}.

Definition set_connections (ws : list WebSocket) : Handler () := λ s,
  Returned () {| teams := teams s; current_bid := current_bid s;
                 players_collection := players_collection s;
                 db_results := db_results s;
                 active_connections := ws;
                 tasks := tasks s;
                 sent := sent s |}.

(** [asyncio.create_task(manager.broadcast(...))]: the broadcast is queued
    when the calling thread runs the event loop; otherwise the call raises
    [RuntimeError] ("no running event loop"). *)
Definition create_task (th : Thread) (b : Broadcast) : Handler () :=
  match th with
  | EventLoop => λ s,
    Returned () {| teams := teams s; current_bid := current_bid s;
                   players_collection := players_collection s;
                   db_results := db_results s;
                   active_connections := active_connections s;
                   tasks := tasks s ++ [b];
                   sent := sent s |}
  | Worker => raise RuntimeError
  end.

(** The integers BSON can hold: 64-bit signed. *)
Definition fits_int64 (n : Z) : bool :=
  (-9223372036854775808 <=? n) && (n <=? 9223372036854775807).

(** [db["results"].insert_one(doc)] *)
Definition insert_result (doc : CurrentBid) : Handler () :=
  if fits_int64 (highest_bid doc)
  then rs ← gets db_results; set_results (rs ++ [doc])
  else raise OverflowError.

(** [players_collection.insert_one(p.dict())] *)
Definition insert_player (p : Player) : Handler () :=
  if fits_int64 (base_price p)
  then ps ← gets players_collection; set_players (ps ++ [p])
  else raise OverflowError.

Definition state_of {A} (o : Outcome A) : State :=
  match o with
  | Returned _ s => s
  | Raised _ s => s
  end.

(** The exception a call ended in, if any. *)
Definition exception_of {A} (o : Outcome A) : option Exn :=
  match o with
  | Returned _ _ => None
  | Raised e _ => Some e
  end.

(** The endpoint answered with an ["error"] dict. *)
Definition refused (o : Outcome Response) : bool :=
  match o with
  | Returned (error _) _ => true
  | _ => false
  end.

(** ** Seed data and initial state *)

Definition sample_players : list Player :=
  [ {| name := "Virat Kohli"; role := "Batsman"; base_price := 50000;
       image := "https://i.ibb.co/ZdS5KpR/virat.jpg" |};
    {| name := "Rohit Sharma"; role := "Batsman"; base_price := 45000;
       image := "https://i.ibb.co/xFM3W2T/rohit.jpg" |};
    {| name := "Jasprit Bumrah"; role := "Bowler"; base_price := 40000;
       image := "https://i.ibb.co/zHq2Nw7/bumrah.jpg" |};
    {| name := "Hardik Pandya"; role := "All-Rounder"; base_price := 42000;
       image := "https://i.ibb.co/WgLwKLD/hardik.jpg" |};
    {| name := "Ravindra Jadeja"; role := "All-Rounder"; base_price := 38000;
       image := "https://i.ibb.co/3WMLk9C/jadeja.jpg" |} ].

(** [load_sample_players]: seeds the collection only when it is empty. *)
Definition load_sample_players : Handler () :=
  ps ← gets players_collection;
  if bool_decide (length ps = 0%nat) then set_players (ps ++ sample_players)
  else mret ().

Definition initial_teams : gmap string Z :=
  <["Team A" := 100000]> (<["Team B" := 100000]>
  (<["Team C" := 100000]> (<["Team D" := 100000]> ∅))).

(** The state once the module has been loaded, given what the two stored
    collections held at that moment. *)
Definition initial (stored_players : list Player)
    (stored_results : list CurrentBid) : State :=
  state_of (load_sample_players
    {| teams := initial_teams; current_bid := idle_bid;
       players_collection := stored_players;
       db_results := stored_results;
       active_connections := []; tasks := []; sent := [] |}).

(** ** REST endpoints *)

(** [str(x)] for a value that is [None] or a [str], as an f-string prints
    it. *)
Definition str_of (o : option string) : string := default "None" o.

(** [POST /clear_data/] *)
Definition clear_data (th : Thread) : Handler Response :=
  set_players [];;
  set_results [];;
  ts ← gets teams;
  set_teams ((λ _, 100000) <$> ts);;
  load_sample_players;;
  create_task th (Bcast clear_data_msg);;
  ps ← gets players_collection;
  create_task th (Bcast (players_update ps));;
  create_task th BcastBudgets;;
  rs ← gets db_results;
  create_task th (Bcast (results_update rs));;
  mret (message "All data cleared and sample players reloaded.").

(** [POST /start_bidding/] *)
Definition start_bidding (th : Thread) (player_name : string)
    : Handler Response :=
  set_current_bid {| player := Some player_name; highest_bid := 0;
                     team := None; is_active := true |};;
  create_task th (Bcast (start_bidding_msg (Some player_name) 0));;
  mret (message ("Bidding started for " +:+ player_name)).

(** [POST /place_bid/] *)
Definition place_bid (th : Thread) (team_name : string) (amount : Z)
    : Handler Response :=
  cb ← gets current_bid;
  if negb (is_active cb) then mret (error "No active bidding right now")
  else
    ts ← gets teams;
    match ts !! team_name with
    | None => mret (error "Invalid team name")
    | Some budget =>
      if amount >? budget
      then mret (error (team_name +:+ " does not have enough budget!"))
      else if amount <=? highest_bid cb
      then mret (error "Bid must be higher than current bid")
      else
        set_current_bid (set_highest_bid amount cb);;
        cb1 ← gets current_bid;
        set_current_bid (set_team (Some team_name) cb1);;
        cb2 ← gets current_bid;
        create_task th (Bcast (new_bid (player cb2) amount team_name));;
        mret (message (team_name +:+ " placed a bid of ₹" +:+ pretty amount))
    end.

(** The [if current_bid["team"]:] branch of [end_bidding]: settlement. *)
Definition settle (th : Thread) (team_name : string) : Handler string :=
  cb ← gets current_bid;
  let amount := highest_bid cb in
  ts ← gets teams;
  match ts !! team_name with
  | None => raise (KeyError team_name)
  | Some budget =>
    set_teams (<[team_name := budget - amount]> ts);;
    insert_result cb;;
    create_task th
      (Bcast (end_bidding_msg (player cb) (Some team_name) amount));;
    create_task th BcastBudgets;;
    rs' ← gets db_results;
    create_task th (Bcast (results_update rs'));;
    ps ← gets players_collection;
    create_task th (Bcast (players_update ps));;
    mret (str_of (player cb) +:+ " sold to " +:+ team_name +:+ " for ₹"
          +:+ pretty amount +:+ ". Remaining budget: ₹"
          +:+ pretty (budget - amount))
  end.

(** The [else:] branch of [end_bidding]: nothing was bid. *)
Definition no_bids (th : Thread) : Handler string :=
  cb ← gets current_bid;
  create_task th (Bcast (end_bidding_msg (player cb) None 0));;
  mret "No bids placed.".

(** [POST /end_bidding/].  The test [if current_bid["team"]] is Python
    truthiness: [None] and the empty string both take the [else] branch. *)
Definition end_bidding (th : Thread) : Handler Response :=
  cb ← gets current_bid;
  if negb (is_active cb) then mret (message "No active bidding to end.")
  else
    set_current_bid (set_is_active false cb);;
    msg ← match team cb with
          | Some team_name =>
            if bool_decide (team_name = "") then no_bids th
            else settle th team_name
          | None => no_bids th
          end;
    set_current_bid idle_bid;;
    mret (message msg).

(** ** WebSocket endpoint *)

(** [ConnectionManager.connect] *)
Definition connect (websocket : WebSocket) : Handler () :=
  ws ← gets active_connections;
  set_connections (ws ++ [websocket]).

(** [websocket_endpoint] up to its receive loop: the socket is registered,
    then the snapshot is sent to it, message by message. *)
Definition websocket_endpoint (websocket : WebSocket) : Handler () :=
  connect websocket;;
  ps ← gets players_collection;
  send_json websocket (players_update ps);;
  ts ← gets teams;
  send_json websocket (budgets_update ts);;
  rs ← gets db_results;
  send_json websocket (results_update rs);;
  cb ← gets current_bid;
  if is_active cb
  then send_json websocket (start_bidding_msg (player cb) (highest_bid cb))
  else mret ().

(** ** Serialized request sequences *)

Inductive Request :=
| StartBidding (player_name : string)
| PlaceBid (team_name : string) (amount : Z)
| EndBidding
| ClearData.

Definition handle (th : Thread) (r : Request) : Handler Response :=
  match r with
  | StartBidding p => start_bidding th p
  | PlaceBid t a => place_bid th t a
  | EndBidding => end_bidding th
  | ClearData => clear_data th
  end.

(** The state after a sequence of requests, each served to its end (its
    return or its exception) before the next. *)
Definition run (th : Thread) (reqs : list Request) (s : State) : State :=
  foldl (λ s r, state_of (handle th r s)) s reqs.

(** The states a run of [place_bid] calls passes through, first to last. *)
Fixpoint bid_states (th : Thread) (s : State) (bids : list (string * Z))
    : list State :=
  match bids with
  | [] => [s]
  | (t, a) :: rest =>
    s :: bid_states th (state_of (place_bid th t a s)) rest
  end.

(** ** The remaining endpoints and the connection manager *)

(** [GET /] *)
Definition home : Handler Response :=
  mret (message "Cricket Auction API (with WebSocket) running.").

(** [GET /players/] *)
Definition get_players : Handler (list Player) := gets players_collection.

(** [GET /budgets/] *)
Definition get_budgets : Handler (gmap string Z) := gets teams.

(** [GET /results/] *)
Definition get_results : Handler (list CurrentBid) := gets db_results.

(** [POST /add_player/]; the body has already been validated into a
    [Player]. *)
Definition add_player (th : Thread) (p : Player) : Handler Response :=
  insert_player p;;
  ps ← gets players_collection;
  create_task th (Bcast (players_update ps));;
  mret (message "Player added").

(** [list.remove(x)] on a list that holds [x]: the first occurrence goes. *)
Fixpoint remove_first (x : WebSocket) (l : list WebSocket)
    : list WebSocket :=
  match l with
  | [] => []
  | y :: l' => if bool_decide (x = y) then l' else y :: remove_first x l'
  end.

(** [ConnectionManager.disconnect] *)
Definition disconnect (websocket : WebSocket) : Handler () :=
  ws ← gets active_connections;
  if bool_decide (websocket ∈ ws)
  then set_connections (remove_first websocket ws)
  else mret ().

(** The [for ws in websockets] loop of [broadcast] with the gathered sends,
    one per socket of the copied list, in list order. *)
Fixpoint send_all (websockets : list WebSocket) (m : Message) : Handler () :=
  match websockets with
  | [] => mret ()
  | ws :: rest => send_json ws m;; send_all rest m
  end.

(** [ConnectionManager.broadcast] *)
Definition broadcast (m : Message) : Handler () :=
  websockets ← gets active_connections;
  if bool_decide (websockets = []) then mret ()
  else send_all websockets m.

(** Everything a client can trigger: the REST endpoints, opening a
    WebSocket, and closing one (which makes [websocket_endpoint] call
    [manager.disconnect]). *)
Inductive Call :=
| CallRequest (r : Request)
| CallHome
| CallGetPlayers
| CallGetBudgets
| CallGetResults
| CallAddPlayer (p : Player)
| CallOpen (websocket : WebSocket)
| CallClose (websocket : WebSocket).

(** The state a call leaves behind and the exception it ended in, if any.
    [th] is the thread of the plain [def] routes; the WebSocket endpoint is
    a coroutine and schedules nothing. *)
Definition outcome_of (th : Thread) (c : Call) (s : State)
    : State * option Exn :=
  let pack {A} (o : Outcome A) : State * option Exn :=
    (state_of o, exception_of o) in
  match c with
  | CallRequest r => pack (handle th r s)
  | CallHome => pack (home s)
  | CallGetPlayers => pack (get_players s)
  | CallGetBudgets => pack (get_budgets s)
  | CallGetResults => pack (get_results s)
  | CallAddPlayer p => pack (add_player th p s)
  | CallOpen ws => pack (websocket_endpoint ws s)
  | CallClose ws => pack (disconnect ws s)
  end.

Definition perform (th : Thread) (c : Call) (s : State) : State :=
  fst (outcome_of th c s).

Definition perform_all (th : Thread) (calls : list Call) (s : State)
    : State :=
  foldl (λ s c, perform th c s) s calls.

(** ** Outcomes, invariant and sample states *)

(** How an endpoint that has scheduled its broadcasts ends: with its answer
    on the event loop, with the [RuntimeError] of the first [create_task] in
    a worker thread. *)
Definition answer (th : Thread) (resp : Response) (s : State)
    : Outcome Response :=
  match th with
  | EventLoop => Returned resp s
  | Worker => Raised RuntimeError s
  end.

(** The broadcasts [bs] queued on the event loop; none in a worker. *)
Definition scheduled (th : Thread) (bs : list Broadcast) (s : State)
    : State :=
  match th with
  | EventLoop =>
    {| teams := teams s; current_bid := current_bid s;
       players_collection := players_collection s;
       db_results := db_results s;
       active_connections := active_connections s;
       tasks := tasks s ++ bs;
       sent := sent s |}
  | Worker => s
  end.

Definition with_bid (cb : CurrentBid) (s : State) : State :=
  {| teams := teams s; current_bid := cb;
     players_collection := players_collection s;
     db_results := db_results s;
     active_connections := active_connections s;
     tasks := tasks s;
     sent := sent s |}.

(** The reset on the last line of [end_bidding], reached on the event loop
    only. *)
Definition closed (th : Thread) (s : State) : State :=
  match th with
  | EventLoop => with_bid idle_bid s
  | Worker => s
  end.

(** The round after a [place_bid team_name amount] that passed the
    checks. *)
Definition bid_stored (team_name : string) (amount : Z) (s : State)
    : State :=
  with_bid {| player := player (current_bid s);
              highest_bid := amount;
              team := Some team_name;
              is_active := is_active (current_bid s) |} s.

(** The state after the debit of winner [t], whose budget was [b], without
    and with the result document. *)
Definition debited (t : string) (b : Z) (s : State) : State :=
  {| teams := <[t := b - highest_bid (current_bid s)]> (teams s);
     current_bid := set_is_active false (current_bid s);
     players_collection := players_collection s;
     db_results := db_results s;
     active_connections := active_connections s;
     tasks := tasks s;
     sent := sent s |}.

Definition logged (t : string) (b : Z) (s : State) : State :=
  {| teams := <[t := b - highest_bid (current_bid s)]> (teams s);
     current_bid := set_is_active false (current_bid s);
     players_collection := players_collection s;
     db_results := db_results s ++ [set_is_active false (current_bid s)];
     active_connections := active_connections s;
     tasks := tasks s;
     sent := sent s |}.

(** The state a settled [end_bidding] leaves behind. *)
Definition settled (th : Thread) (t : string) (b : Z) (s : State) : State :=
  let cb := set_is_active false (current_bid s) in
  closed th (scheduled th
    [Bcast (end_bidding_msg (player cb) (Some t) (highest_bid cb));
     BcastBudgets;
     Bcast (results_update (db_results s ++ [cb]));
     Bcast (players_update (players_collection s))]
    (logged t b s)).

(** The state an [end_bidding] without bids leaves behind. *)
Definition unsold (th : Thread) (s : State) : State :=
  closed th (scheduled th
    [Bcast (end_bidding_msg (player (current_bid s)) None 0)]
    (with_bid (set_is_active false (current_bid s)) s)).

(** The text of the settlement answer: player, winner, amount and the
    winner's remaining budget. *)
Definition sold_text (p : option string) (t : string) (a rest : Z) : string :=
  str_of p +:+ " sold to " +:+ t +:+ " for ₹" +:+ pretty a
  +:+ ". Remaining budget: ₹" +:+ pretty rest.

(** The data after [clear_data]. *)
Definition data_cleared (s : State) : State :=
  {| teams := (λ _, 100000) <$> teams s;
     current_bid := current_bid s;
     players_collection := sample_players;
     db_results := [];
     active_connections := active_connections s;
     tasks := tasks s;
     sent := sent s |}.

(** What every state reached from the initial one satisfies: team names are
    non-empty, budgets stay between 0 and the initial 100000, the highest
    bid is 0 without a leading team and positive with one, and while the
    round is active the leader is a registered team whose budget covers
    the highest bid. *)
Record consistent (s : State) : Prop := {
  no_empty_name : teams s !! "" = None;
  budgets_in_range : ∀ t b, teams s !! t = Some b → 0 ≤ b ≤ 100000;
  unbid_zero :
    team (current_bid s) = None → highest_bid (current_bid s) = 0;
  leader_positive : ∀ t,
    team (current_bid s) = Some t → 0 < highest_bid (current_bid s);
  leader_covered : ∀ t,
    is_active (current_bid s) = true → team (current_bid s) = Some t →
    ∃ b, teams s !! t = Some b ∧ highest_bid (current_bid s) ≤ b
}.

(** The sum of all budgets of a ledger, and of the amounts of a list of
    result documents. *)
Definition total_budget (ts : gmap string Z) : Z :=
  map_fold (λ _ b acc, b + acc) 0 ts.

Definition total_sold (rs : list CurrentBid) : Z :=
  foldr (λ r acc, highest_bid r + acc) 0 rs.

(** What [end_bidding] logs: a closed round with a player, a winner and a
    positive amount within the initial budget. *)
Definition sale_record (r : CurrentBid) : Prop :=
  is_active r = false
  ∧ is_Some (player r)
  ∧ is_Some (team r)
  ∧ 0 < highest_bid r ≤ 100000.

(** The part of the run invariant that concerns the player of the round
    and the result collection. *)
Record orderly (s : State) : Prop := {
  active_means_player :
    is_active (current_bid s) = true → is_Some (player (current_bid s));
  results_are_sales : Forall sale_record (db_results s);
  books_balance :
    total_budget (teams s) + total_sold (db_results s)
    = 100000 * Z.of_nat (size (teams s))
}.

(** A round for "P1" led by Team A at 50000, as the routes leave it. *)
Definition led_by_a : State :=
  run Worker [StartBidding "P1"; PlaceBid "Team A" 50000] (initial [] []).

(** The same round led by Team B at the same amount. *)
Definition led_by_b : State :=
  run Worker [StartBidding "P1"; PlaceBid "Team B" 50000] (initial [] []).

(** A round for "P2" that nobody bid on. *)
Definition no_bid_round : State :=
  run Worker [StartBidding "P2"] (initial [] []).

(** A round whose leader bid more than it owns. *)
Definition overdrawn_round : State :=
  {| teams := <["Team A" := 10]> initial_teams;
     current_bid := {| player := Some "P1"; highest_bid := 20;
                       team := Some "Team A"; is_active := true |};
     players_collection := sample_players;
     db_results := [];
     active_connections := []; tasks := []; sent := [] |}.

(** ** Equations of the endpoints *)

Ltac step_handler :=
  cbv [mbind handler_bind mret handler_ret gets raise set_teams
       set_current_bid set_players set_results set_connections
       create_task insert_result insert_player send_json connect
       load_sample_players] in *;
  cbn [teams current_bid players_collection db_results active_connections
       tasks sent player highest_bid team is_active state_of
       set_highest_bid set_team set_is_active idle_bid negb] in *.

Ltac beta_iota := cbv beta iota delta [negb].

Lemma state_of_answer th resp s : state_of (answer th resp s) = s.
Proof. by destruct th. Qed.

Lemma refused_answer th text s : refused (answer th (message text) s) = false.
Proof. by destruct th. Qed.

Lemma scheduled_fields th bs s :
  teams (scheduled th bs s) = teams s
  ∧ current_bid (scheduled th bs s) = current_bid s
  ∧ players_collection (scheduled th bs s) = players_collection s
  ∧ db_results (scheduled th bs s) = db_results s
  ∧ active_connections (scheduled th bs s) = active_connections s
  ∧ sent (scheduled th bs s) = sent s.
Proof. by destruct th. Qed.

Lemma closed_fields th s :
  teams (closed th s) = teams s
  ∧ players_collection (closed th s) = players_collection s
  ∧ db_results (closed th s) = db_results s
  ∧ active_connections (closed th s) = active_connections s
  ∧ sent (closed th s) = sent s
  ∧ (is_active (current_bid s) = false →
     is_active (current_bid (closed th s)) = false).
Proof. by destruct th. Qed.

Lemma place_bid_inactive th t a s :
  is_active (current_bid s) = false →
  place_bid th t a s = Returned (error "No active bidding right now") s.
Proof. intros H. unfold place_bid. step_handler. by rewrite H. Qed.

Lemma place_bid_unknown_team th t a s :
  is_active (current_bid s) = true → teams s !! t = None →
  place_bid th t a s = Returned (error "Invalid team name") s.
Proof.
  intros H Ht. unfold place_bid. step_handler. rewrite H. beta_iota.
  by rewrite Ht.
Qed.

Lemma place_bid_over_budget th t a s b :
  is_active (current_bid s) = true → teams s !! t = Some b → b < a →
  place_bid th t a s
  = Returned (error (t +:+ " does not have enough budget!")) s.
Proof.
  intros H Ht Hlt. unfold place_bid. step_handler. rewrite H. beta_iota.
  rewrite Ht. beta_iota. by replace (a >? b) with true by (symmetry; lia).
Qed.

Lemma place_bid_too_low th t a s b :
  is_active (current_bid s) = true → teams s !! t = Some b → a ≤ b →
  a ≤ highest_bid (current_bid s) →
  place_bid th t a s
  = Returned (error "Bid must be higher than current bid") s.
Proof.
  intros H Ht Hle Hlow. unfold place_bid. step_handler. rewrite H. beta_iota.
  rewrite Ht. beta_iota. replace (a >? b) with false by (symmetry; lia).
  by replace (a <=? highest_bid (current_bid s)) with true
    by (symmetry; lia).
Qed.

Lemma place_bid_accepted th t a s b :
  is_active (current_bid s) = true → teams s !! t = Some b → a ≤ b →
  highest_bid (current_bid s) < a →
  place_bid th t a s
  = answer th (message (t +:+ " placed a bid of ₹" +:+ pretty a))
      (scheduled th [Bcast (new_bid (player (current_bid s)) a t)]
         (bid_stored t a s)).
Proof.
  intros H Ht Hle Hhi. unfold place_bid. destruct th; step_handler;
    rewrite H; beta_iota; rewrite Ht; beta_iota;
    replace (a >? b) with false by (symmetry; lia);
    by replace (a <=? highest_bid (current_bid s)) with false
      by (symmetry; lia).
Qed.

(** Every call of [place_bid] either answers with an error dict and leaves
    the state alone, or passed all four checks and stored the bid. *)
Lemma place_bid_cases th t a s :
  (refused (place_bid th t a s) = true
   ∧ ∃ text, place_bid th t a s = Returned (error text) s)
  ∨ (refused (place_bid th t a s) = false
     ∧ is_active (current_bid s) = true
     ∧ (∃ b, teams s !! t = Some b ∧ a ≤ b)
     ∧ highest_bid (current_bid s) < a
     ∧ state_of (place_bid th t a s)
       = scheduled th [Bcast (new_bid (player (current_bid s)) a t)]
           (bid_stored t a s)).
Proof.
  destruct (is_active (current_bid s)) eqn:Hact.
  - destruct (teams s !! t) as [b|] eqn:Ht.
    + destruct (decide (b < a)) as [Hlt|Hge].
      * left. rewrite (place_bid_over_budget th t a s b) by done. by eauto.
      * destruct (decide (a ≤ highest_bid (current_bid s))) as [Hlow|Hhi].
        -- left. rewrite (place_bid_too_low th t a s b) by (done || lia).
           by eauto.
        -- right. rewrite (place_bid_accepted th t a s b) by (done || lia).
           rewrite refused_answer, state_of_answer.
           repeat split; eauto with lia.
    + left. rewrite place_bid_unknown_team by done. by eauto.
  - left. rewrite place_bid_inactive by done. by eauto.
Qed.

(** The state after an accepted bid, field by field. *)
Lemma bid_stored_fields th bs t a s :
  teams (scheduled th bs (bid_stored t a s)) = teams s
  ∧ current_bid (scheduled th bs (bid_stored t a s))
    = {| player := player (current_bid s); highest_bid := a;
         team := Some t; is_active := is_active (current_bid s) |}
  ∧ players_collection (scheduled th bs (bid_stored t a s))
    = players_collection s
  ∧ db_results (scheduled th bs (bid_stored t a s)) = db_results s
  ∧ active_connections (scheduled th bs (bid_stored t a s))
    = active_connections s
  ∧ sent (scheduled th bs (bid_stored t a s)) = sent s.
Proof. by destruct th. Qed.

Lemma end_bidding_inactive th s :
  is_active (current_bid s) = false →
  end_bidding th s = Returned (message "No active bidding to end.") s.
Proof. intros H. unfold end_bidding. step_handler. by rewrite H. Qed.

Lemma end_bidding_settled th s t b :
  is_active (current_bid s) = true →
  team (current_bid s) = Some t → t ≠ "" → teams s !! t = Some b →
  fits_int64 (highest_bid (current_bid s)) = true →
  end_bidding th s
  = answer th (message (sold_text (player (current_bid s)) t
                          (highest_bid (current_bid s))
                          (b - highest_bid (current_bid s))))
              (settled th t b s).
Proof.
  intros H Ht Hne Hb Hfit. unfold end_bidding, settle, no_bids.
  destruct th; step_handler; rewrite H; beta_iota;
    rewrite Ht, bool_decide_false by done; step_handler;
    rewrite Hb; beta_iota; rewrite Hfit; [|done].
  unfold settled, sold_text, answer, closed, scheduled, logged, with_bid.
  step_handler. by rewrite <- !(assoc_L (++)).
Qed.

Lemma end_bidding_overflow th s t b :
  is_active (current_bid s) = true →
  team (current_bid s) = Some t → t ≠ "" → teams s !! t = Some b →
  fits_int64 (highest_bid (current_bid s)) = false →
  end_bidding th s = Raised OverflowError (debited t b s).
Proof.
  intros H Ht Hne Hb Hfit. unfold end_bidding, settle, no_bids.
  step_handler. rewrite H. beta_iota.
  rewrite Ht, bool_decide_false by done. step_handler.
  rewrite Hb. beta_iota. by rewrite Hfit.
Qed.

Lemma end_bidding_unsold th s :
  is_active (current_bid s) = true → team (current_bid s) = None →
  end_bidding th s = answer th (message "No bids placed.") (unsold th s).
Proof.
  intros H Ht. unfold end_bidding, settle, no_bids.
  destruct th; step_handler; rewrite H; beta_iota; by rewrite Ht.
Qed.

Lemma end_bidding_empty_name th s :
  is_active (current_bid s) = true → team (current_bid s) = Some "" →
  end_bidding th s = answer th (message "No bids placed.") (unsold th s).
Proof.
  intros H Ht. unfold end_bidding, settle, no_bids.
  destruct th; step_handler; rewrite H; beta_iota; by rewrite Ht.
Qed.

Lemma end_bidding_key_error th s t :
  is_active (current_bid s) = true →
  team (current_bid s) = Some t → t ≠ "" → teams s !! t = None →
  end_bidding th s
  = Raised (KeyError t) (with_bid (set_is_active false (current_bid s)) s).
Proof.
  intros H Ht Hne Hb. unfold end_bidding, settle, no_bids. step_handler.
  rewrite H. beta_iota. rewrite Ht, bool_decide_false by done. step_handler.
  by rewrite Hb.
Qed.

Lemma start_bidding_eq th p s :
  start_bidding th p s
  = answer th (message ("Bidding started for " +:+ p))
      (scheduled th [Bcast (start_bidding_msg (Some p) 0)]
         (with_bid {| player := Some p; highest_bid := 0;
                      team := None; is_active := true |} s)).
Proof. by destruct th. Qed.

Lemma clear_data_eq th s :
  clear_data th s
  = answer th (message "All data cleared and sample players reloaded.")
      (scheduled th
         [Bcast clear_data_msg; Bcast (players_update sample_players);
          BcastBudgets; Bcast (results_update [])]
         (data_cleared s)).
Proof.
  unfold clear_data. destruct th; step_handler;
    (destruct (bool_decide _) eqn:E; [|by apply bool_decide_eq_false in E]);
    [|done].
  unfold answer, scheduled, data_cleared. cbn.
  by rewrite <- !(assoc_L (++)).
Qed.

Lemma add_player_stored th p s :
  fits_int64 (base_price p) = true →
  add_player th p s
  = answer th (message "Player added")
      (scheduled th [Bcast (players_update (players_collection s ++ [p]))]
         {| teams := teams s;
            current_bid := current_bid s;
            players_collection := players_collection s ++ [p];
            db_results := db_results s;
            active_connections := active_connections s;
            tasks := tasks s;
            sent := sent s |}).
Proof.
  intros Hfit. unfold add_player. destruct th; step_handler;
    by rewrite Hfit.
Qed.

Lemma add_player_overflow th p s :
  fits_int64 (base_price p) = false →
  add_player th p s = Raised OverflowError s.
Proof. intros Hfit. unfold add_player. step_handler. by rewrite Hfit. Qed.

(** The four ways [end_bidding] can go besides the [OverflowError] of the
    insert, and that one, on any state. *)
Lemma end_bidding_cases th s :
  (is_active (current_bid s) = false
   ∧ end_bidding th s = Returned (message "No active bidding to end.") s)
  ∨ (is_active (current_bid s) = true
     ∧ (team (current_bid s) = None ∨ team (current_bid s) = Some "")
     ∧ end_bidding th s
       = answer th (message "No bids placed.") (unsold th s))
  ∨ (∃ t b,
       is_active (current_bid s) = true
       ∧ team (current_bid s) = Some t ∧ t ≠ "" ∧ teams s !! t = Some b
       ∧ fits_int64 (highest_bid (current_bid s)) = true
       ∧ end_bidding th s
         = answer th (message (sold_text (player (current_bid s)) t
                                 (highest_bid (current_bid s))
                                 (b - highest_bid (current_bid s))))
                     (settled th t b s))
  ∨ (∃ t b,
       is_active (current_bid s) = true
       ∧ team (current_bid s) = Some t ∧ t ≠ "" ∧ teams s !! t = Some b
       ∧ fits_int64 (highest_bid (current_bid s)) = false
       ∧ end_bidding th s = Raised OverflowError (debited t b s))
  ∨ (∃ t,
       is_active (current_bid s) = true
       ∧ team (current_bid s) = Some t ∧ t ≠ "" ∧ teams s !! t = None
       ∧ end_bidding th s
         = Raised (KeyError t)
             (with_bid (set_is_active false (current_bid s)) s)).
Proof.
  destruct (is_active (current_bid s)) eqn:Hact;
    [|left; split; [done|by apply end_bidding_inactive]].
  right. destruct (team (current_bid s)) as [t|] eqn:Ht;
    [|left; repeat split; [by left|by apply end_bidding_unsold]].
  destruct (decide (t = "")) as [->|Hne];
    [left; repeat split; [by right|by apply end_bidding_empty_name]|].
  right. destruct (teams s !! t) as [b|] eqn:Hb.
  - destruct (fits_int64 (highest_bid (current_bid s))) eqn:Hfit.
    + left. exists t, b. repeat split; try done.
      by apply end_bidding_settled.
    + right. left. exists t, b. repeat split; try done.
      by apply end_bidding_overflow.
  - right. right. exists t. repeat split; try done.
    by apply end_bidding_key_error.
Qed.

(** The states [end_bidding] can leave, field by field. *)
Lemma settled_fields th t b s :
  teams (settled th t b s)
  = <[t := b - highest_bid (current_bid s)]> (teams s)
  ∧ db_results (settled th t b s)
    = db_results s ++ [set_is_active false (current_bid s)]
  ∧ players_collection (settled th t b s) = players_collection s
  ∧ active_connections (settled th t b s) = active_connections s
  ∧ sent (settled th t b s) = sent s
  ∧ current_bid (settled th t b s)
    = match th with
      | EventLoop => idle_bid
      | Worker => set_is_active false (current_bid s)
      end.
Proof. by destruct th. Qed.

Lemma unsold_fields th s :
  teams (unsold th s) = teams s
  ∧ db_results (unsold th s) = db_results s
  ∧ players_collection (unsold th s) = players_collection s
  ∧ active_connections (unsold th s) = active_connections s
  ∧ sent (unsold th s) = sent s
  ∧ current_bid (unsold th s)
    = match th with
      | EventLoop => idle_bid
      | Worker => set_is_active false (current_bid s)
      end.
Proof. by destruct th. Qed.

Lemma data_cleared_fields th bs s :
  teams (scheduled th bs (data_cleared s)) = (λ _, 100000) <$> teams s
  ∧ current_bid (scheduled th bs (data_cleared s)) = current_bid s
  ∧ players_collection (scheduled th bs (data_cleared s)) = sample_players
  ∧ db_results (scheduled th bs (data_cleared s)) = []
  ∧ active_connections (scheduled th bs (data_cleared s))
    = active_connections s
  ∧ sent (scheduled th bs (data_cleared s)) = sent s.
Proof. by destruct th. Qed.

(** ** The invariant of serialized runs *)

Lemma initial_teams_lookup t b :
  initial_teams !! t = Some b → t ≠ "" ∧ b = 100000.
Proof.
  unfold initial_teams. intros H.
  repeat (apply lookup_insert_Some in H as [[<- <-]|[_ H]]; [done|]).
  by rewrite lookup_empty in H.
Qed.

Lemma initial_eq sp sr :
  teams (initial sp sr) = initial_teams
  ∧ current_bid (initial sp sr) = idle_bid
  ∧ db_results (initial sp sr) = sr
  ∧ tasks (initial sp sr) = []
  ∧ active_connections (initial sp sr) = [].
Proof.
  unfold initial. step_handler. by destruct (bool_decide _).
Qed.

Lemma consistent_initial sp sr : consistent (initial sp sr).
Proof.
  destruct (initial_eq sp sr) as (Ht & Hcb & _).
  split; rewrite ?Ht, ?Hcb; cbn; try done.
  intros t b [_ ->]%initial_teams_lookup. lia.
Qed.

Lemma fits_int64_budget n : 0 ≤ n ≤ 100000 → fits_int64 n = true.
Proof.
  intros Hn. unfold fits_int64. apply andb_true_intro.
  split; apply Z.leb_le; lia.
Qed.

Lemma highest_bid_nonneg s : consistent s → 0 ≤ highest_bid (current_bid s).
Proof.
  intros Hs. destruct (team (current_bid s)) as [t|] eqn:E.
  - pose proof (leader_positive s Hs t E). lia.
  - rewrite (unbid_zero s Hs E). lia.
Qed.

(** In a consistent state an active leader makes [end_bidding] settle. *)
Lemma active_leader_settles s t :
  consistent s → is_active (current_bid s) = true →
  team (current_bid s) = Some t →
  t ≠ ""
  ∧ ∃ b, teams s !! t = Some b
         ∧ 0 < highest_bid (current_bid s) ≤ b
         ∧ b ≤ 100000
         ∧ fits_int64 (highest_bid (current_bid s)) = true.
Proof.
  intros Hs Hact Ht.
  destruct (leader_covered s Hs t Hact Ht) as (b & Hb & Hle).
  pose proof (leader_positive s Hs t Ht) as Hpos.
  pose proof (budgets_in_range s Hs t b Hb) as Hr.
  split.
  - intros ->. pose proof (no_empty_name s Hs). congruence.
  - exists b. repeat split; try done; try lia.
    apply fits_int64_budget. lia.
Qed.

Lemma consistent_start_bidding th p s :
  consistent s → consistent (state_of (start_bidding th p s)).
Proof.
  intros [H1 H2 H3 H4 H5]. rewrite start_bidding_eq, state_of_answer.
  destruct (scheduled_fields th [Bcast (start_bidding_msg (Some p) 0)]
    (with_bid {| player := Some p; highest_bid := 0;
                 team := None; is_active := true |} s))
    as (Et & Ecb & _).
  by split; rewrite ?Et, ?Ecb; cbn.
Qed.

Lemma consistent_place_bid th t a s :
  consistent s → consistent (state_of (place_bid th t a s)).
Proof.
  intros Hs. pose proof (highest_bid_nonneg s Hs) as Hnn.
  destruct (place_bid_cases th t a s)
    as [(_ & text & ->)|(_ & _ & (b & Hb & Hle) & Hhi & ->)]; [done|].
  destruct (bid_stored_fields th
    [Bcast (new_bid (player (current_bid s)) a t)] t a s)
    as (Et & Ecb & _).
  destruct Hs as [H1 H2 H3 H4 H5].
  split; rewrite ?Et, ?Ecb; cbn; try done.
  - intros _ _. lia.
  - intros t' _ [= <-]. by eauto.
Qed.

Lemma consistent_end_bidding th s :
  consistent s → consistent (state_of (end_bidding th s)).
Proof.
  intros Hs.
  destruct (end_bidding_cases th s)
    as [[_ ->]|[(_ & Hnone & ->)
       |[(t & b & Hact & Ht & _ & Hb & _ & ->)
        |[(t & b & Hact & Ht & _ & _ & Hfit & _)
         |(t & Hact & Ht & _ & Hb & _)]]]]; [done| | | |].
  - rewrite state_of_answer.
    destruct (unsold_fields th s) as (Et & _ & _ & _ & _ & Ecb).
    destruct Hs as [H1 H2 H3 H4 H5].
    split; rewrite ?Et, ?Ecb; destruct th; cbn; try done.
  - rewrite state_of_answer.
    destruct (settled_fields th t b s) as (Et & _ & _ & _ & _ & Ecb).
    destruct (active_leader_settles s t Hs Hact Ht)
      as (Hne & b' & Hb' & Hpos & Hmax & _).
    rewrite Hb in Hb'. injection Hb' as <-.
    destruct Hs as [H1 H2 H3 H4 H5].
    split; rewrite ?Et, ?Ecb.
    + by rewrite lookup_insert_ne.
    + intros t' b' [[<- <-]|[_ Hb']]%lookup_insert_Some; [lia|by eauto].
    + destruct th; cbn; done.
    + destruct th; cbn; done.
    + destruct th; cbn; done.
  - destruct (active_leader_settles s t Hs Hact Ht)
      as (_ & b' & _ & _ & _ & Hfit'). congruence.
  - destruct (active_leader_settles s t Hs Hact Ht)
      as (_ & b' & Hb' & _). congruence.
Qed.

Lemma consistent_clear_data th s :
  consistent s → consistent (state_of (clear_data th s)).
Proof.
  intros Hs. rewrite clear_data_eq, state_of_answer.
  match goal with |- consistent (scheduled th ?bs _) =>
    destruct (data_cleared_fields th bs s) as (Et & Ecb & _) end.
  split; rewrite ?Et, ?Ecb.
  - by rewrite lookup_fmap, (no_empty_name s Hs).
  - intros t b (? & <- & _)%lookup_fmap_Some. lia.
  - by apply unbid_zero.
  - by apply leader_positive.
  - intros t Hact Ht.
    destruct (active_leader_settles s t Hs Hact Ht)
      as (_ & b & Hb & Hpos & Hmax & _).
    exists 100000. rewrite lookup_fmap, Hb. split; [done|lia].
Qed.

Lemma consistent_handle th r s :
  consistent s → consistent (state_of (handle th r s)).
Proof.
  destruct r; cbn [handle];
    auto using consistent_start_bidding, consistent_place_bid,
      consistent_end_bidding, consistent_clear_data.
Qed.

Lemma consistent_run th reqs s : consistent s → consistent (run th reqs s).
Proof.
  revert s. induction reqs as [|r reqs IH]; intros s Hs; [done|].
  apply IH. by apply consistent_handle.
Qed.

Lemma consistent_reachable th sp sr reqs :
  consistent (run th reqs (initial sp sr)).
Proof. apply consistent_run, consistent_initial. Qed.

(** ** Runs of bids *)

Lemma place_bid_highest_mono th t a s :
  highest_bid (current_bid s)
  ≤ highest_bid (current_bid (state_of (place_bid th t a s))).
Proof.
  destruct (place_bid_cases th t a s)
    as [(_ & text & ->)|(_ & _ & _ & Hhi & ->)]; [cbn; lia|].
  destruct (bid_stored_fields th
    [Bcast (new_bid (player (current_bid s)) a t)] t a s) as (_ & -> & _).
  cbn. lia.
Qed.

Lemma bid_states_lower_bound th bids : ∀ s j sj,
  bid_states th s bids !! j = Some sj →
  highest_bid (current_bid s) ≤ highest_bid (current_bid sj).
Proof.
  induction bids as [|[t a] bids IH]; intros s j sj Hj.
  - destruct j; cbn in Hj; [|done]. injection Hj as <-. lia.
  - destruct j as [|j]; cbn in Hj.
    + injection Hj as <-. lia.
    + apply IH in Hj. pose proof (place_bid_highest_mono th t a s). lia.
Qed.

Lemma bid_states_mono th bids : ∀ s i j si sj,
  (i ≤ j)%nat →
  bid_states th s bids !! i = Some si →
  bid_states th s bids !! j = Some sj →
  highest_bid (current_bid si) ≤ highest_bid (current_bid sj).
Proof.
  induction bids as [|[t a] bids IH]; intros s i j si sj Hij Hi Hj.
  - destruct i, j; cbn in Hi, Hj; try done.
    injection Hi as <-. injection Hj as <-. lia.
  - destruct i as [|i].
    + cbn in Hi. injection Hi as <-.
      by apply (bid_states_lower_bound th ((t, a) :: bids) s j).
    + destruct j as [|j]; [lia|]. cbn in Hi, Hj.
      eapply IH; [|done..]. lia.
Qed.

Lemma bid_states_step th bids : ∀ s i t a si,
  bids !! i = Some (t, a) → bid_states th s bids !! i = Some si →
  bid_states th s bids !! S i = Some (state_of (place_bid th t a si)).
Proof.
  induction bids as [|[t0 a0] bids IH]; intros s i t a si Hb Hi; [done|].
  destruct i as [|i].
  - cbn in Hb, Hi. injection Hb as -> ->. injection Hi as <-.
    cbn. by destruct bids as [|[??]?].
  - cbn in Hb, Hi. cbn [bid_states]. rewrite lookup_cons_ne_0 by done.
    cbn [Nat.pred]. by apply IH.
Qed.

(** ** Sums over the ledger and the result collection *)

Lemma total_budget_insert_fresh (ts : gmap string Z) t b :
  ts !! t = None → total_budget (<[t := b]> ts) = b + total_budget ts.
Proof.
  intros Hn. unfold total_budget.
  rewrite map_fold_insert_L; [done| |done]. intros; lia.
Qed.

Lemma total_budget_update (ts : gmap string Z) t b b' :
  ts !! t = Some b →
  total_budget (<[t := b']> ts) = total_budget ts - b + b'.
Proof.
  intros Hb. rewrite <- (insert_delete_id ts t b) at 2 by done.
  rewrite <- (insert_delete_eq ts).
  rewrite !total_budget_insert_fresh by apply lookup_delete_eq. lia.
Qed.

Lemma total_budget_reset (ts : gmap string Z) c :
  total_budget ((λ _, c) <$> ts) = c * Z.of_nat (size ts).
Proof.
  induction ts as [|t b ts Hn IH] using map_ind.
  - rewrite fmap_empty, map_size_empty. unfold total_budget.
    rewrite map_fold_empty. lia.
  - rewrite fmap_insert, total_budget_insert_fresh
      by (by rewrite lookup_fmap, Hn).
    rewrite map_size_insert_None by done. lia.
Qed.

Lemma total_sold_app rs r :
  total_sold (rs ++ [r]) = total_sold rs + highest_bid r.
Proof.
  unfold total_sold. induction rs as [|r0 rs IH]; cbn; [lia|].
  rewrite IH. lia.
Qed.

Lemma initial_teams_size : size initial_teams = 4%nat.
Proof. vm_compute. reflexivity. Qed.

Lemma initial_teams_total : total_budget initial_teams = 400000.
Proof.
  unfold initial_teams.
  rewrite !total_budget_insert_fresh; first (unfold total_budget;
    rewrite map_fold_empty; lia); vm_compute; reflexivity.
Qed.

(** ** The invariant of the result collection *)

Lemma orderly_initial sp : orderly (initial sp []).
Proof.
  destruct (initial_eq sp []) as (Ht & Hcb & Hr & _).
  split; rewrite ?Ht, ?Hcb, ?Hr; cbn.
  - done.
  - constructor.
  - rewrite initial_teams_total, initial_teams_size. lia.
Qed.

Lemma orderly_start_bidding th p s :
  orderly s → orderly (state_of (start_bidding th p s)).
Proof.
  intros [H1 H2 H3]. rewrite start_bidding_eq, state_of_answer.
  match goal with |- orderly (scheduled th ?bs ?s1) =>
    destruct (scheduled_fields th bs s1) as (Et & Ecb & _ & Er & _) end.
  split; rewrite ?Et, ?Ecb, ?Er; cbn; eauto.
Qed.

Lemma orderly_place_bid th t a s :
  orderly s → orderly (state_of (place_bid th t a s)).
Proof.
  intros Hs.
  destruct (place_bid_cases th t a s)
    as [(_ & text & ->)|(_ & Hact & _ & _ & ->)]; [done|].
  destruct (bid_stored_fields th
    [Bcast (new_bid (player (current_bid s)) a t)] t a s)
    as (Et & Ecb & _ & Er & _).
  destruct Hs as [H1 H2 H3]. split; rewrite ?Et, ?Ecb, ?Er; cbn; eauto.
Qed.

Lemma orderly_end_bidding th s :
  consistent s → orderly s → orderly (state_of (end_bidding th s)).
Proof.
  intros Hc Hs.
  destruct (end_bidding_cases th s)
    as [[_ ->]|[(_ & Hnone & ->)
       |[(t & b & Hact & Ht & _ & Hb & _ & ->)
        |[(t & b & Hact & Ht & _ & _ & Hfit & _)
         |(t & Hact & Ht & _ & Hb & _)]]]]; [done| | | |].
  - rewrite state_of_answer.
    destruct (unsold_fields th s) as (Et & Er & _ & _ & _ & Ecb).
    destruct Hs as [H1 H2 H3].
    split; rewrite ?Et, ?Er, ?Ecb; destruct th; cbn; done.
  - rewrite state_of_answer.
    destruct (settled_fields th t b s) as (Et & Er & _ & _ & _ & Ecb).
    destruct (active_leader_settles s t Hc Hact Ht)
      as (Hne & b' & Hb' & Hpos & Hmax & _).
    rewrite Hb in Hb'. injection Hb' as <-.
    destruct Hs as [H1 H2 H3].
    split; rewrite ?Et, ?Er, ?Ecb.
    + destruct th; cbn; done.
    + apply Forall_app. split; [done|]. constructor; [|constructor].
      repeat split; cbn; [by apply H1|by rewrite Ht|lia|lia].
    + rewrite (total_budget_update _ t b) by done.
      rewrite total_sold_app, map_size_insert_Some by done. cbn. lia.
  - destruct (active_leader_settles s t Hc Hact Ht)
      as (_ & b' & _ & _ & _ & Hfit'). congruence.
  - destruct (active_leader_settles s t Hc Hact Ht)
      as (_ & b' & Hb' & _). congruence.
Qed.

Lemma orderly_clear_data th s :
  orderly s → orderly (state_of (clear_data th s)).
Proof.
  intros [H1 H2 H3]. rewrite clear_data_eq, state_of_answer.
  match goal with |- orderly (scheduled th ?bs _) =>
    destruct (data_cleared_fields th bs s) as (Et & Ecb & _ & Er & _) end.
  split; rewrite ?Et, ?Ecb, ?Er; cbn; try done.
  rewrite total_budget_reset, map_size_fmap. lia.
Qed.

Lemma orderly_handle th r s :
  consistent s → orderly s → orderly (state_of (handle th r s)).
Proof.
  destruct r; cbn [handle];
    auto using orderly_start_bidding, orderly_place_bid,
      orderly_end_bidding, orderly_clear_data.
Qed.

(** ** Equations of the remaining endpoints *)

Lemma websocket_endpoint_returns ws s :
  ∃ s', websocket_endpoint ws s = Returned () s'
        ∧ teams s' = teams s
        ∧ current_bid s' = current_bid s
        ∧ players_collection s' = players_collection s
        ∧ db_results s' = db_results s.
Proof.
  unfold websocket_endpoint. step_handler.
  destruct (is_active (current_bid s)); eexists; by split.
Qed.

Lemma disconnect_returns ws s :
  ∃ s', disconnect ws s = Returned () s'
        ∧ teams s' = teams s
        ∧ current_bid s' = current_bid s
        ∧ players_collection s' = players_collection s
        ∧ db_results s' = db_results s.
Proof.
  unfold disconnect. step_handler.
  destruct (bool_decide _); eexists; by split.
Qed.

Lemma add_player_frame th p s :
  teams (state_of (add_player th p s)) = teams s
  ∧ current_bid (state_of (add_player th p s)) = current_bid s
  ∧ db_results (state_of (add_player th p s)) = db_results s
  ∧ active_connections (state_of (add_player th p s))
    = active_connections s
  ∧ sent (state_of (add_player th p s)) = sent s
  ∧ (players_collection (state_of (add_player th p s))
     = players_collection s
     ∨ players_collection (state_of (add_player th p s))
       = players_collection s ++ [p]).
Proof.
  destruct (fits_int64 (base_price p)) eqn:Hfit.
  - rewrite (add_player_stored th p s Hfit), state_of_answer.
    destruct th; cbn; repeat split; by right.
  - rewrite (add_player_overflow th p s Hfit). cbn.
    repeat split; by left.
Qed.

(** A call that is not one of the four bidding requests reads or changes
    nothing but the player list, the socket list and the logs. *)
Lemma side_call_frame th c s :
  (∃ r, c = CallRequest r)
  ∨ (teams (perform th c s) = teams s
     ∧ current_bid (perform th c s) = current_bid s
     ∧ db_results (perform th c s) = db_results s).
Proof.
  destruct c as [r| | | | |p|ws|ws]; [left; by eexists|right..];
    unfold perform; cbn [outcome_of fst]; try done.
  - destruct (add_player_frame th p s) as (? & ? & ? & _). done.
  - destruct (websocket_endpoint_returns ws s) as (s' & -> & ? & ? & ? & ?).
    done.
  - destruct (disconnect_returns ws s) as (s' & -> & ? & ? & ? & ?). done.
Qed.

Lemma perform_request th r s :
  perform th (CallRequest r) s = state_of (handle th r s).
Proof. done. Qed.

Lemma consistent_perform th c s :
  consistent s → consistent (perform th c s).
Proof.
  intros Hs. destruct (side_call_frame th c s) as [[r ->]|(Ht & Hcb & _)].
  - rewrite perform_request. by apply consistent_handle.
  - destruct Hs as [H1 H2 H3 H4 H5]. split; rewrite ?Ht, ?Hcb; done.
Qed.

Lemma orderly_perform th c s :
  consistent s → orderly s → orderly (perform th c s).
Proof.
  intros Hc Hs.
  destruct (side_call_frame th c s) as [[r ->]|(Ht & Hcb & Hr)].
  - rewrite perform_request. by apply orderly_handle.
  - destruct Hs as [H1 H2 H3]. split; rewrite ?Ht, ?Hcb, ?Hr; done.
Qed.

Lemma consistent_perform_all th calls s :
  consistent s → consistent (perform_all th calls s).
Proof.
  revert s. induction calls as [|c calls IH]; intros s Hs; [done|].
  apply IH. by apply consistent_perform.
Qed.

Lemma orderly_perform_all th calls s :
  consistent s → orderly s → orderly (perform_all th calls s).
Proof.
  revert s. induction calls as [|c calls IH]; intros s Hc Hs; [done|].
  apply IH; [by apply consistent_perform|by apply orderly_perform].
Qed.

Lemma remove_first_absent ws l : ws ∉ l → remove_first ws (l ++ [ws]) = l.
Proof.
  induction l as [|y l IH]; intros Hn; cbn.
  - by rewrite bool_decide_true.
  - apply not_elem_of_cons in Hn as [Hne Hn].
    rewrite bool_decide_false by done. by rewrite IH.
Qed.

Lemma remove_first_other ws ws' l :
  ws' ≠ ws → (ws' ∈ remove_first ws l ↔ ws' ∈ l).
Proof.
  intros Hne. induction l as [|y l IH]; cbn; [done|].
  case_bool_decide as E.
  - subst y. rewrite elem_of_cons. split; [by right|].
    by intros [?|?].
  - rewrite !elem_of_cons, IH. done.
Qed.

Lemma remove_first_nodup ws l :
  NoDup l → (ws ∉ remove_first ws l) ∧ NoDup (remove_first ws l).
Proof.
  induction 1 as [|y l Hy Hl IH]; cbn; [split; [by intros ?%elem_of_nil|
    constructor]|].
  case_bool_decide as E.
  - by subst y.
  - destruct IH as [IH1 IH2]. split.
    + rewrite elem_of_cons. by intros [?|?].
    + constructor; [|done]. intros Hin. apply Hy.
      by apply (remove_first_other ws y l).
Qed.

Lemma send_all_eq websockets m : ∀ s,
  send_all websockets m s
  = Returned ()
      {| teams := teams s; current_bid := current_bid s;
         players_collection := players_collection s;
         db_results := db_results s;
         active_connections := active_connections s;
         tasks := tasks s;
         sent := sent s ++ ((λ ws, (ws, m)) <$> websockets) |}.
Proof.
  induction websockets as [|ws rest IH]; intros s; cbn.
  - destruct s. cbn. by rewrite app_nil_r.
  - step_handler. rewrite IH. cbn. by rewrite <- (assoc_L (++)).
Qed.


(** ** What the bidding requests leave alone *)

Lemma end_bidding_frame th s :
  players_collection (state_of (end_bidding th s)) = players_collection s
  ∧ active_connections (state_of (end_bidding th s)) = active_connections s
  ∧ sent (state_of (end_bidding th s)) = sent s
  ∧ is_active (current_bid (state_of (end_bidding th s))) = false
  ∧ dom (teams (state_of (end_bidding th s))) = dom (teams s)
  ∧ db_results s `prefix_of` db_results (state_of (end_bidding th s)).
Proof.
  destruct (end_bidding_cases th s)
    as [[Hact ->]|[(_ & _ & ->)
       |[(t & b & _ & _ & _ & Hb & _ & ->)
        |[(t & b & _ & _ & _ & Hb & _ & ->)
         |(t & _ & _ & _ & _ & ->)]]]]; rewrite ?state_of_answer.
  - done.
  - destruct (unsold_fields th s) as (-> & -> & -> & -> & -> & ->).
    by destruct th.
  - destruct (settled_fields th t b s) as (-> & -> & -> & -> & -> & ->).
    repeat split; try done.
    + by destruct th.
    + apply dom_insert_lookup_L. by eauto.
    + by apply prefix_app_r.
  - cbn. repeat split; try done.
    apply dom_insert_lookup_L. by eauto.
  - done.
Qed.

Lemma handle_frame th r s :
  active_connections (state_of (handle th r s)) = active_connections s
  ∧ sent (state_of (handle th r s)) = sent s
  ∧ dom (teams (state_of (handle th r s))) = dom (teams s)
  ∧ (r ≠ ClearData →
     players_collection (state_of (handle th r s)) = players_collection s
     ∧ db_results s `prefix_of` db_results (state_of (handle th r s))).
Proof.
  destruct r as [p|t a| |]; cbn [handle].
  - rewrite start_bidding_eq, state_of_answer.
    match goal with |- context [scheduled th ?bs ?s1] =>
      destruct (scheduled_fields th bs s1)
        as (-> & _ & -> & -> & -> & ->) end. done.
  - destruct (place_bid_cases th t a s)
      as [(_ & text & ->)|(_ & _ & _ & _ & ->)]; [done|].
    destruct (bid_stored_fields th
      [Bcast (new_bid (player (current_bid s)) a t)] t a s)
      as (-> & _ & -> & -> & -> & ->). done.
  - destruct (end_bidding_frame th s) as (? & ? & ? & _ & ? & ?). done.
  - rewrite clear_data_eq, state_of_answer.
    match goal with |- context [scheduled th ?bs _] =>
      destruct (data_cleared_fields th bs s)
        as (-> & _ & _ & _ & -> & ->) end.
    repeat split; try done. apply dom_fmap_L.
Qed.

Lemma perform_dom th c s : dom (teams (perform th c s)) = dom (teams s).
Proof.
  destruct (side_call_frame th c s) as [[r ->]|(-> & _)]; [|done].
  rewrite perform_request.
  by destruct (handle_frame th r s) as (_ & _ & ? & _).
Qed.

Lemma perform_all_dom th calls s :
  dom (teams (perform_all th calls s)) = dom (teams s).
Proof.
  revert s. induction calls as [|c calls IH]; intros s; [done|].
  cbn. unfold perform_all in IH. by rewrite IH, perform_dom.
Qed.

Lemma perform_results_prefix th c s :
  c ≠ CallRequest ClearData →
  db_results s `prefix_of` db_results (perform th c s).
Proof.
  intros Hc. destruct (side_call_frame th c s) as [[r ->]|(_ & _ & ->)];
    [|done].
  rewrite perform_request.
  destruct (handle_frame th r s) as (_ & _ & _ & H).
  apply H. congruence.
Qed.

Lemma initial_players sp sr :
  players_collection (initial sp sr) ≠ [].
Proof.
  unfold initial. step_handler. case_bool_decide as E; cbn.
  - destruct sp; [discriminate|done].
  - by destruct sp.
Qed.

Lemma perform_players th c s :
  players_collection s ≠ [] → players_collection (perform th c s) ≠ [].
Proof.
  intros Hs. destruct c as [r| | | | |p|ws|ws];
    [rewrite perform_request|unfold perform; cbn [outcome_of fst]..];
    try done.
  - destruct r as [p|t a| |].
    + destruct (handle_frame th (StartBidding p) s) as (_ & _ & _ & H).
      by destruct H as [-> _].
    + destruct (handle_frame th (PlaceBid t a) s) as (_ & _ & _ & H).
      by destruct H as [-> _].
    + destruct (handle_frame th EndBidding s) as (_ & _ & _ & H).
      by destruct H as [-> _].
    + cbn [handle]. rewrite clear_data_eq, state_of_answer.
      match goal with |- context [scheduled th ?bs _] =>
        destruct (data_cleared_fields th bs s) as (_ & _ & -> & _) end.
      done.
  - destruct (add_player_frame th p s)
      as (_ & _ & _ & _ & _ & [->| ->]); [done|].
    by destruct (players_collection s).
  - destruct (websocket_endpoint_returns ws s) as (s' & E & _ & _ & Hp & _).
    rewrite E. cbn. by rewrite Hp.
  - destruct (disconnect_returns ws s) as (s' & E & _ & _ & Hp & _).
    rewrite E. cbn. by rewrite Hp.
Qed.

Lemma perform_budget_falls th c s t b :
  consistent s → c ≠ CallRequest ClearData → teams s !! t = Some b →
  ∃ b', teams (perform th c s) !! t = Some b' ∧ b' ≤ b.
Proof.
  intros Hs Hc Hb.
  destruct (side_call_frame th c s) as [[r ->]|(Ht & _)];
    [|rewrite Ht; exists b; split; [done|lia]].
  rewrite perform_request. destruct r as [p|t0 a| |]; cbn [handle].
  - rewrite start_bidding_eq, state_of_answer.
    match goal with |- context [scheduled th ?bs ?s1] =>
      destruct (scheduled_fields th bs s1) as (-> & _) end.
    exists b. split; [done|lia].
  - destruct (place_bid_cases th t0 a s)
      as [(_ & text & ->)|(_ & _ & _ & _ & ->)];
      [exists b; split; [done|lia]|].
    destruct (bid_stored_fields th
      [Bcast (new_bid (player (current_bid s)) a t0)] t0 a s) as (-> & _).
    exists b. split; [done|lia].
  - destruct (end_bidding_cases th s)
      as [[Hact ->]|[(_ & _ & ->)
         |[(t1 & b1 & Hact & Ht1 & _ & Hb1 & _ & ->)
          |[(t1 & b1 & Hact & Ht1 & _ & _ & Hfit & _)
           |(t1 & Hact & Ht1 & _ & Hb1 & _)]]]];
      rewrite ?state_of_answer.
    + exists b. split; [done|lia].
    + destruct (unsold_fields th s) as (-> & _).
      exists b. split; [done|lia].
    + destruct (settled_fields th t1 b1 s) as (-> & _).
      pose proof (leader_positive s Hs t1 Ht1) as Hpos.
      destruct (decide (t1 = t)) as [->|Hne].
      * rewrite lookup_insert_eq. eexists. split; [done|].
        rewrite Hb in Hb1. injection Hb1 as <-. lia.
      * rewrite lookup_insert_ne by done. exists b. split; [done|lia].
    + destruct (active_leader_settles s t1 Hs Hact Ht1)
        as (_ & b' & _ & _ & _ & Hfit'). congruence.
    + destruct (active_leader_settles s t1 Hs Hact Ht1)
        as (_ & b' & Hb' & _). congruence.
  - done.
Qed.

(** In a consistent state a bidding request ends in its answer on the
    event loop, and in its answer or the [RuntimeError] of [create_task]
    in a worker thread. *)
Lemma handle_exception th r s :
  consistent s →
  exception_of (handle th r s) = None
  ∨ (th = Worker ∧ exception_of (handle th r s) = Some RuntimeError).
Proof.
  intros Hs.
  assert (∀ resp s', exception_of (answer th resp s') = None
    ∨ (th = Worker
       ∧ exception_of (answer th resp s') = Some RuntimeError)) as Hans.
  { intros resp s'. destruct th; [by left|by right]. }
  destruct r as [p|t a| |]; cbn [handle].
  - rewrite start_bidding_eq. apply Hans.
  - destruct (is_active (current_bid s)) eqn:Hact;
      [|rewrite place_bid_inactive by done; by left].
    destruct (teams s !! t) as [b|] eqn:Ht;
      [|rewrite place_bid_unknown_team by done; by left].
    destruct (decide (b < a));
      [rewrite (place_bid_over_budget th t a s b) by done; by left|].
    destruct (decide (a ≤ highest_bid (current_bid s)));
      [rewrite (place_bid_too_low th t a s b) by (done || lia); by left|].
    rewrite (place_bid_accepted th t a s b) by (done || lia). apply Hans.
  - destruct (end_bidding_cases th s)
      as [[Hact ->]|[(_ & _ & ->)
         |[(t1 & b1 & _ & _ & _ & _ & _ & ->)
          |[(t1 & b1 & Hact & Ht1 & _ & _ & Hfit & _)
           |(t1 & Hact & Ht1 & _ & Hb1 & _)]]]];
      [by left|apply Hans|apply Hans| |].
    + destruct (active_leader_settles s t1 Hs Hact Ht1)
        as (_ & b' & _ & _ & _ & Hfit'). congruence.
    + destruct (active_leader_settles s t1 Hs Hact Ht1)
        as (_ & b' & Hb' & _). congruence.
  - rewrite clear_data_eq. apply Hans.
Qed.

(** ** A round played through the routes *)

(** Start "P1", Team A bids 50000 (stored), then 40000 (too low), end:
    Team A is left with 50000 and the one result is ("P1", Team A, 50000). *)
Example round_played_through :
  let s1 := run Worker [StartBidding "P1"; PlaceBid "Team A" 50000]
                (initial [] []) in
  let s3 := run Worker [PlaceBid "Team A" 40000; EndBidding] s1 in
  highest_bid (current_bid s1) = 50000
  ∧ place_bid Worker "Team A" 40000 s1
    = Returned (error "Bid must be higher than current bid") s1
  ∧ teams s3 !! "Team A" = Some 50000
  ∧ db_results s3 = [ {| player := Some "P1"; highest_bid := 50000;
                         team := Some "Team A"; is_active := false |} ].
Proof. repeat split; vm_compute; reflexivity. Qed.

(** ** The claims *)

(** C1. The claim fails on the route.  After [start_bidding "P1"] and an
    accepted bid of 50000 by Team A, [end_bidding], run as FastAPI runs it,
    debits Team A by exactly 50000 and appends the one result document,
    but then ends in the [RuntimeError] of [create_task], before the reset
    on its last line: the round is left inactive with player "P1", Team A
    and 50000 still in it, not with a null player. *)
Theorem end_bidding_route_skips_reset :
  ∃ s',
    end_bidding Worker led_by_a = Raised RuntimeError s'
    ∧ teams led_by_a !! "Team A" = Some 100000
    ∧ teams s' !! "Team A" = Some 50000
    ∧ db_results s'
      = [ {| player := Some "P1"; highest_bid := 50000;
             team := Some "Team A"; is_active := false |} ]
    ∧ current_bid s'
      = {| player := Some "P1"; highest_bid := 50000;
           team := Some "Team A"; is_active := false |}
    ∧ player (current_bid s') ≠ None.
Proof.
  eexists. split; [vm_compute; reflexivity|].
  repeat split; try (vm_compute; reflexivity). discriminate.
Qed.

(** C2. Along every sequence of [place_bid] calls (on any round, an active
    one in particular, in either thread) the stored [highest_bid] never
    decreases from one state to a later one, and every accepted bid, that
    is every call not answered with an error dict, is strictly above the
    [highest_bid] stored before the call, and is what is stored after
    it. *)
Theorem place_bid_monotone th s (bids : list (string * Z)) :
  (∀ i j si sj, (i ≤ j)%nat →
     bid_states th s bids !! i = Some si →
     bid_states th s bids !! j = Some sj →
     highest_bid (current_bid si) ≤ highest_bid (current_bid sj))
  ∧ (∀ i t a si,
       bids !! i = Some (t, a) → bid_states th s bids !! i = Some si →
       refused (place_bid th t a si) = false →
       highest_bid (current_bid si) < a
       ∧ bid_states th s bids !! S i
         = Some (state_of (place_bid th t a si))
       ∧ highest_bid (current_bid (state_of (place_bid th t a si))) = a).
Proof.
  split.
  - apply bid_states_mono.
  - intros i t a si Hb Hi Hok. split; [|split].
    + destruct (place_bid_cases th t a si)
        as [[E _]|(_ & _ & _ & Hhi & _)]; [congruence|done].
    + by apply bid_states_step.
    + destruct (place_bid_cases th t a si)
        as [[E _]|(_ & _ & _ & _ & ->)]; [congruence|].
      by destruct (bid_stored_fields th
        [Bcast (new_bid (player (current_bid si)) a t)] t a si)
        as (_ & -> & _).
Qed.

Lemma place_bid_monotone_witness :
  highest_bid (current_bid no_bid_round) < 30000
  ∧ highest_bid (current_bid
      (state_of (place_bid Worker "Team B" 30000 no_bid_round))) = 30000.
Proof.
  destruct (place_bid_monotone Worker no_bid_round
              [("Team B", 30000); ("Team C", 20000)]) as [_ H].
  destruct (H 0%nat "Team B" 30000 no_bid_round) as (H1 & _ & H2);
    [reflexivity | reflexivity | vm_compute; reflexivity |].
  split; [exact H1 | exact H2].
Defined.

(** C3. In every state reached from the initial state (all four teams at
    100000) by a serialized sequence of [start_bidding], [place_bid],
    [end_bidding] and [clear_data] requests, in either thread, every
    team's budget is a non-negative integer. *)
Theorem budgets_never_negative th sp sr reqs t b :
  teams (run th reqs (initial sp sr)) !! t = Some b → 0 ≤ b.
Proof.
  intros Hb.
  pose proof (budgets_in_range _ (consistent_reachable th sp sr reqs) t b Hb).
  lia.
Qed.

Lemma budgets_never_negative_witness :
  teams (run Worker
           [StartBidding "P1"; PlaceBid "Team A" 50000; EndBidding;
            StartBidding "P2"; PlaceBid "Team A" 50000; ClearData;
            EndBidding]
           (initial [] [])) !! "Team A" = Some 50000
  ∧ 0 ≤ 50000.
Proof.
  assert (teams (run Worker
           [StartBidding "P1"; PlaceBid "Team A" 50000; EndBidding;
            StartBidding "P2"; PlaceBid "Team A" 50000; ClearData;
            EndBidding]
           (initial [] [])) !! "Team A" = Some 50000) as H
    by (vm_compute; reflexivity).
  split; [exact H|].
  exact (budgets_never_negative Worker [] [] _ "Team A" 50000 H).
Defined.

(** C4. [place_bid team amount] on an active round, for a registered team
    whose budget is below [amount], answers with the error
    ["<team> does not have enough budget!"] and leaves the whole state, so
    the round (player, highest bid, leading team, active flag) and every
    budget, as it was. *)
Theorem place_bid_insufficient_budget th t a s b :
  is_active (current_bid s) = true →
  teams s !! t = Some b →
  b < a →
  place_bid th t a s
  = Returned (error (t +:+ " does not have enough budget!")) s.
Proof. apply place_bid_over_budget. Qed.

Lemma place_bid_insufficient_budget_witness :
  is_active (current_bid led_by_a) = true
  ∧ teams led_by_a !! "Team B" = Some 100000
  ∧ 100000 < 100001
  ∧ place_bid Worker "Team B" 100001 led_by_a
    = Returned (error ("Team B" +:+ " does not have enough budget!"))
               led_by_a.
Proof.
  split; [vm_compute; reflexivity|].
  split; [vm_compute; reflexivity|].
  split; [lia|].
  apply (place_bid_insufficient_budget Worker "Team B" 100001 led_by_a
           100000);
    [vm_compute; reflexivity | vm_compute; reflexivity | lia].
Defined.

(** C5, as stated, fails: ending the bid-less round for "P2" appends no
    result document at all, so none with a null team, in a worker thread
    and on the event loop alike. *)
Lemma unsold_round_appends_nothing :
  is_active (current_bid no_bid_round) = true
  ∧ team (current_bid no_bid_round) = None
  ∧ db_results (state_of (end_bidding Worker no_bid_round))
    = db_results no_bid_round
  ∧ db_results (state_of (end_bidding EventLoop no_bid_round))
    = db_results no_bid_round
  ∧ ¬ ∃ e, db_results (state_of (end_bidding Worker no_bid_round))
           = db_results no_bid_round ++ [e].
Proof.
  split; [vm_compute; reflexivity|].
  split; [vm_compute; reflexivity|].
  split; [vm_compute; reflexivity|].
  split; [vm_compute; reflexivity|].
  intros [e He]. vm_compute in He. discriminate He.
Qed.

(** C5, amended. Ending an active round without leading team appends no
    result document (the result collection is unchanged) and leaves every
    budget unchanged. *)
Theorem end_bidding_without_bids th s :
  is_active (current_bid s) = true →
  team (current_bid s) = None →
  teams (state_of (end_bidding th s)) = teams s
  ∧ db_results (state_of (end_bidding th s)) = db_results s.
Proof.
  intros Hact Ht. rewrite end_bidding_unsold, state_of_answer by done.
  by destruct (unsold_fields th s) as (-> & -> & _).
Qed.

Lemma end_bidding_without_bids_witness :
  is_active (current_bid no_bid_round) = true
  ∧ team (current_bid no_bid_round) = None
  ∧ teams (state_of (end_bidding Worker no_bid_round))
    = teams no_bid_round
  ∧ db_results (state_of (end_bidding Worker no_bid_round))
    = db_results no_bid_round.
Proof.
  split; [vm_compute; reflexivity|].
  split; [vm_compute; reflexivity|].
  apply (end_bidding_without_bids Worker no_bid_round);
    vm_compute; reflexivity.
Defined.

(** C6, as stated, fails: with Team A at budget 10 leading an active round
    at 20, [end_bidding] debits Team A all the same and leaves it at -10,
    in a worker thread and on the event loop alike. *)
Lemma overdrawn_round_is_debited :
  is_active (current_bid overdrawn_round) = true
  ∧ team (current_bid overdrawn_round) = Some "Team A"
  ∧ teams overdrawn_round !! "Team A" = Some 10
  ∧ highest_bid (current_bid overdrawn_round) = 20
  ∧ teams (state_of (end_bidding Worker overdrawn_round)) !! "Team A"
    = Some (-10)
  ∧ teams (state_of (end_bidding EventLoop overdrawn_round)) !! "Team A"
    = Some (-10).
Proof. repeat split; vm_compute; reflexivity. Qed.

(** C6, amended. [end_bidding] has no underflow check: on an active round
    whose leading team (a registered, non-empty name) owns less than
    [highest_bid], the team's budget is lowered by [highest_bid] all the
    same and ends below zero. *)
Theorem end_bidding_debits_unchecked th s t b :
  is_active (current_bid s) = true →
  team (current_bid s) = Some t →
  t ≠ "" →
  teams s !! t = Some b →
  b < highest_bid (current_bid s) →
  teams (state_of (end_bidding th s)) !! t
  = Some (b - highest_bid (current_bid s))
  ∧ b - highest_bid (current_bid s) < 0.
Proof.
  intros Hact Ht Hne Hb Hlt. split; [|lia].
  destruct (fits_int64 (highest_bid (current_bid s))) eqn:Hfit.
  - rewrite (end_bidding_settled th s t b), state_of_answer by done.
    destruct (settled_fields th t b s) as (-> & _).
    apply lookup_insert_eq.
  - rewrite (end_bidding_overflow th s t b) by done. cbn.
    apply lookup_insert_eq.
Qed.

Lemma end_bidding_debits_unchecked_witness :
  is_active (current_bid overdrawn_round) = true
  ∧ team (current_bid overdrawn_round) = Some "Team A"
  ∧ "Team A" ≠ ""
  ∧ teams overdrawn_round !! "Team A" = Some 10
  ∧ 10 < highest_bid (current_bid overdrawn_round)
  ∧ teams (state_of (end_bidding Worker overdrawn_round)) !! "Team A"
    = Some (10 - highest_bid (current_bid overdrawn_round))
  ∧ 10 - highest_bid (current_bid overdrawn_round) < 0.
Proof.
  split; [reflexivity|].
  split; [reflexivity|].
  split; [discriminate|].
  split; [vm_compute; reflexivity|].
  split; [reflexivity|].
  apply (end_bidding_debits_unchecked Worker overdrawn_round "Team A" 10);
    [reflexivity | reflexivity | discriminate | vm_compute; reflexivity
    | reflexivity].
Defined.

(** C7. On a round that is not active, [end_bidding] answers
    "No active bidding to end." and returns the state it was given: every
    budget, the result collection and the round are unchanged. *)
Theorem end_bidding_inactive_noop th s :
  is_active (current_bid s) = false →
  end_bidding th s = Returned (message "No active bidding to end.") s.
Proof. apply end_bidding_inactive. Qed.

Lemma end_bidding_inactive_noop_witness :
  is_active (current_bid (initial [] [])) = false
  ∧ end_bidding Worker (initial [] [])
    = Returned (message "No active bidding to end.") (initial [] []).
Proof.
  split; [vm_compute; reflexivity|].
  apply (end_bidding_inactive_noop Worker (initial [] [])).
  vm_compute; reflexivity.
Defined.

(** C8, as stated, fails: the round message of the snapshot has no team
    field.  Two rounds that differ in their leading team only (Team A or
    Team B at 50000 for "P1") get the very same messages, the last being
    [start_bidding] with player "P1" and highest bid 50000. *)
Lemma snapshot_omits_leading_team :
  team (current_bid led_by_a) = Some "Team A"
  ∧ team (current_bid led_by_b) = Some "Team B"
  ∧ sent (state_of (websocket_endpoint 1%nat led_by_a))
    = sent (state_of (websocket_endpoint 1%nat led_by_b))
  ∧ last (sent (state_of (websocket_endpoint 1%nat led_by_a)))
    = Some (1%nat, start_bidding_msg (Some "P1") 50000).
Proof. repeat split; vm_compute; reflexivity. Qed.

(** C8, amended. To a newly connecting session the server sends, in this
    order, the player list, the team budgets and the result history, and,
    exactly when a round is active, a [start_bidding] message carrying the
    round's player and highest bid (not its leading team); each is read
    from the state at connect time, which the endpoint changes only by
    registering the socket. *)
Theorem websocket_endpoint_snapshot ws s :
  ∃ s',
    websocket_endpoint ws s = Returned () s'
    ∧ sent s'
      = sent s
        ++ [ (ws, players_update (players_collection s));
             (ws, budgets_update (teams s));
             (ws, results_update (db_results s)) ]
        ++ (if is_active (current_bid s)
            then [ (ws, start_bidding_msg (player (current_bid s))
                                          (highest_bid (current_bid s))) ]
            else [])
    ∧ active_connections s' = active_connections s ++ [ws]
    ∧ teams s' = teams s
    ∧ current_bid s' = current_bid s
    ∧ players_collection s' = players_collection s
    ∧ db_results s' = db_results s
    ∧ tasks s' = tasks s.
Proof.
  unfold websocket_endpoint. step_handler.
  destruct (is_active (current_bid s)); eexists; (split; [reflexivity|]);
    cbn; by rewrite <- ?(assoc_L (++)).
Qed.

(** C9. In every state reached from the initial state by a serialized
    sequence of requests ([start_bidding], [place_bid], [end_bidding], and
    [clear_data] as well), in either thread, the round has a leading team
    exactly when its highest bid is above 0. *)
Theorem leader_iff_positive_bid th sp sr reqs :
  is_Some (team (current_bid (run th reqs (initial sp sr))))
  ↔ 0 < highest_bid (current_bid (run th reqs (initial sp sr))).
Proof.
  pose proof (consistent_reachable th sp sr reqs) as [_ _ H3 H4 _].
  destruct (team (current_bid (run th reqs (initial sp sr)))) as [t|].
  - split; [intros _; by apply (H4 t)|by eauto].
  - split; [by intros [? ?]|]. rewrite H3 by done. lia.
Qed.

(** C10. From every state, an active round with accepted bids included,
    [start_bidding player], in either thread, overwrites the round with
    [{player, highest_bid = 0, team = None, is_active = True}] and leaves
    every budget and the result collection unchanged: the round in
    progress is dropped without settlement, debit or result entry. *)
Theorem start_bidding_overwrites th p s :
  current_bid (state_of (start_bidding th p s))
  = {| player := Some p; highest_bid := 0;
       team := None; is_active := true |}
  ∧ teams (state_of (start_bidding th p s)) = teams s
  ∧ db_results (state_of (start_bidding th p s)) = db_results s.
Proof.
  rewrite start_bidding_eq, state_of_answer. by destruct th.
Qed.

(** ** Further properties of the bidding endpoints *)

(** X1. [place_bid team amount] stores the bid, that is, is not answered
    with an error dict, exactly when the round is active, the team is
    registered, the amount is within the team's budget and strictly above
    the stored highest bid; the round then holds the amount and the team,
    in either thread. *)
Theorem place_bid_accepts_iff th t a s :
  (refused (place_bid th t a s) = false
   ↔ is_active (current_bid s) = true
     ∧ ∃ b, teams s !! t = Some b ∧ a ≤ b
            ∧ highest_bid (current_bid s) < a)
  ∧ (refused (place_bid th t a s) = false →
     current_bid (state_of (place_bid th t a s))
     = {| player := player (current_bid s); highest_bid := a;
          team := Some t; is_active := true |}).
Proof.
  split; [split|].
  - destruct (place_bid_cases th t a s)
      as [[E _]|(_ & Hact & (b & Hb & Hle) & Hhi & _)]; [congruence|].
    by eauto.
  - intros (Hact & b & Hb & Hle & Hhi).
    by rewrite (place_bid_accepted th t a s b), refused_answer.
  - destruct (place_bid_cases th t a s)
      as [[E _]|(_ & Hact & _ & _ & ->)]; [congruence|]. intros _.
    destruct (bid_stored_fields th
      [Bcast (new_bid (player (current_bid s)) a t)] t a s) as (_ & -> & _).
    by rewrite Hact.
Qed.

(** X2. A [place_bid] answered with an error dict has changed nothing: it
    returns that dict together with the state it was given. *)
Theorem place_bid_rejection_keeps_state th t a s :
  refused (place_bid th t a s) = true →
  ∃ text, place_bid th t a s = Returned (error text) s.
Proof.
  intros Hno.
  destruct (place_bid_cases th t a s) as [[_ H]|(Hok & _)];
    [done|congruence].
Qed.

Lemma place_bid_rejection_keeps_state_witness :
  refused (place_bid Worker "Team A" 5 (initial [] [])) = true
  ∧ ∃ text,
      place_bid Worker "Team A" 5 (initial [] [])
      = Returned (error text) (initial [] []).
Proof.
  split; [vm_compute; reflexivity|].
  apply (place_bid_rejection_keeps_state Worker "Team A" 5 (initial [] [])).
  vm_compute; reflexivity.
Defined.

(** X3. Whatever its outcome, [place_bid] leaves the ledger, the result
    collection, the player list, the socket list and the log of direct
    sends untouched: a bid never moves money. *)
Theorem place_bid_moves_no_money th t a s :
  teams (state_of (place_bid th t a s)) = teams s
  ∧ db_results (state_of (place_bid th t a s)) = db_results s
  ∧ players_collection (state_of (place_bid th t a s))
    = players_collection s
  ∧ active_connections (state_of (place_bid th t a s))
    = active_connections s
  ∧ sent (state_of (place_bid th t a s)) = sent s.
Proof.
  destruct (place_bid_cases th t a s)
    as [(_ & text & ->)|(_ & _ & _ & _ & ->)]; [done|].
  by destruct (bid_stored_fields th
    [Bcast (new_bid (player (current_bid s)) a t)] t a s)
    as (-> & _ & -> & -> & -> & ->).
Qed.

(** X4. The checks of [place_bid] are made in a fixed order.  An inactive
    round is reported whatever the team and amount; on an active round an
    unregistered team is reported whatever the amount; an amount above the
    budget is reported even when it is also not above the highest bid; and
    an affordable amount equal to or below the highest bid is refused, so
    ties lose. *)
Theorem place_bid_error_order th t a s :
  (is_active (current_bid s) = false →
   place_bid th t a s = Returned (error "No active bidding right now") s)
  ∧ (is_active (current_bid s) = true → teams s !! t = None →
     place_bid th t a s = Returned (error "Invalid team name") s)
  ∧ (∀ b, is_active (current_bid s) = true → teams s !! t = Some b →
       b < a → a ≤ highest_bid (current_bid s) →
       place_bid th t a s
       = Returned (error (t +:+ " does not have enough budget!")) s)
  ∧ (∀ b, is_active (current_bid s) = true → teams s !! t = Some b →
       a ≤ b → a ≤ highest_bid (current_bid s) →
       place_bid th t a s
       = Returned (error "Bid must be higher than current bid") s).
Proof.
  split; [apply place_bid_inactive|].
  split; [apply place_bid_unknown_team|].
  split; intros b ? ? ? ?.
  - by apply (place_bid_over_budget th t a s b).
  - by apply (place_bid_too_low th t a s b).
Qed.

Lemma place_bid_error_order_witness :
  place_bid Worker "Team Z" 1 (initial [] [])
  = Returned (error "No active bidding right now") (initial [] [])
  ∧ place_bid Worker "Team Z" 60000 led_by_a
    = Returned (error "Invalid team name") led_by_a
  ∧ place_bid Worker "Team B" 50000 led_by_a
    = Returned (error "Bid must be higher than current bid") led_by_a.
Proof.
  split; [|split].
  - apply (place_bid_error_order Worker "Team Z" 1 (initial [] [])).
    vm_compute; reflexivity.
  - apply (place_bid_error_order Worker "Team Z" 60000 led_by_a);
      vm_compute; reflexivity.
  - apply (place_bid_error_order Worker "Team B" 50000 led_by_a)
      with 100000; vm_compute; congruence.
Defined.

(** X5. In every state reached from the initial one through any calls, an
    accepted bid (one not answered with an error dict) is positive and at
    most 100000: zero and negative amounts are always refused. *)
Theorem accepted_bid_bounds th sp sr calls t a :
  refused (place_bid th t a (perform_all th calls (initial sp sr))) = false →
  0 < a ≤ 100000.
Proof.
  intros Hok.
  pose proof (consistent_perform_all th calls _ (consistent_initial sp sr))
    as Hs.
  pose proof (highest_bid_nonneg _ Hs) as Hnn.
  destruct (place_bid_cases th t a (perform_all th calls (initial sp sr)))
    as [[E _]|(_ & _ & (b & Hb & Hle) & Hhi & _)]; [congruence|].
  pose proof (budgets_in_range _ Hs _ _ Hb). lia.
Qed.

Lemma accepted_bid_bounds_witness :
  refused (place_bid Worker "Team C" 70000
    (perform_all Worker [CallRequest (StartBidding "P1"); CallOpen 3%nat]
                 (initial [] []))) = false
  ∧ 0 < 70000 ≤ 100000.
Proof.
  assert (refused (place_bid Worker "Team C" 70000
    (perform_all Worker [CallRequest (StartBidding "P1"); CallOpen 3%nat]
                 (initial [] []))) = false) as H
    by (vm_compute; reflexivity).
  split; [exact H|].
  exact (accepted_bid_bounds Worker [] [] _ "Team C" 70000 H).
Defined.

(** X6. No call registers or removes a team: after any sequence of calls,
    from any state, the ledger has the same team names as before. *)
Theorem team_names_never_change th calls s :
  dom (teams (perform_all th calls s)) = dom (teams s).
Proof. apply perform_all_dom. Qed.

(** X7. In every state reached from the initial one, no bidding request
    ends in [KeyError] or [OverflowError]: the lookup [teams[team]] and the
    insert of [end_bidding] never fail.  On the event loop every request
    ends in its answer; in a worker thread a request ends in its answer or
    in the [RuntimeError] of [create_task]. *)
Theorem requests_raise_only_runtime_error th sp sr calls r :
  exception_of (handle th r (perform_all th calls (initial sp sr))) = None
  ∨ (th = Worker
     ∧ exception_of (handle th r (perform_all th calls (initial sp sr)))
       = Some RuntimeError).
Proof.
  apply handle_exception, consistent_perform_all, consistent_initial.
Qed.

(** X8. On an active round whose leading team is a non-empty name missing
    from the ledger, [end_bidding] raises [KeyError]: the round has already
    been switched to inactive but is not reset, nothing is logged and
    nothing is broadcast. *)
Theorem end_bidding_unregistered_leader th s t :
  is_active (current_bid s) = true →
  team (current_bid s) = Some t →
  t ≠ "" →
  teams s !! t = None →
  ∃ s',
    end_bidding th s = Raised (KeyError t) s'
    ∧ current_bid s' = set_is_active false (current_bid s)
    ∧ teams s' = teams s
    ∧ db_results s' = db_results s
    ∧ tasks s' = tasks s.
Proof.
  intros Hact Ht Hne Hb. eexists. split; [by apply end_bidding_key_error|].
  done.
Qed.

Lemma end_bidding_unregistered_leader_witness :
  let s := {| teams := initial_teams;
              current_bid := {| player := Some "P1"; highest_bid := 20;
                                team := Some "Team Z"; is_active := true |};
              players_collection := []; db_results := [];
              active_connections := []; tasks := []; sent := [] |} in
  ∃ s',
    end_bidding Worker s = Raised (KeyError "Team Z") s'
    ∧ current_bid s' = set_is_active false (current_bid s)
    ∧ teams s' = teams s
    ∧ db_results s' = db_results s
    ∧ tasks s' = tasks s.
Proof.
  intros s. apply (end_bidding_unregistered_leader Worker s "Team Z");
    [reflexivity | reflexivity | discriminate | vm_compute; reflexivity].
Defined.

(** X9. The test [if current_bid["team"]] is a truthiness test: a leading
    team that is the empty string counts as no team, even when the ledger
    has an entry for it.  The round is closed without debit and without a
    result document. *)
Theorem end_bidding_empty_leader_name th s :
  is_active (current_bid s) = true →
  team (current_bid s) = Some "" →
  teams (state_of (end_bidding th s)) = teams s
  ∧ db_results (state_of (end_bidding th s)) = db_results s
  ∧ is_active (current_bid (state_of (end_bidding th s))) = false.
Proof.
  intros Hact Ht. rewrite end_bidding_empty_name, state_of_answer by done.
  destruct (unsold_fields th s) as (-> & -> & _ & _ & _ & ->).
  by destruct th.
Qed.

Lemma end_bidding_empty_leader_name_witness :
  let s := {| teams := <["" := 500]> initial_teams;
              current_bid := {| player := Some "P1"; highest_bid := 20;
                                team := Some ""; is_active := true |};
              players_collection := []; db_results := [];
              active_connections := []; tasks := []; sent := [] |} in
  teams (state_of (end_bidding Worker s)) = teams s
  ∧ db_results (state_of (end_bidding Worker s)) = db_results s
  ∧ is_active (current_bid (state_of (end_bidding Worker s))) = false.
Proof.
  intros s. apply (end_bidding_empty_leader_name Worker s); reflexivity.
Defined.

(** ** Properties of whole runs *)

(** X10. Started on an empty result collection, the books always balance:
    after any sequence of calls the budgets of all teams plus the amounts
    of all logged results add up to 400000, the four initial budgets. *)
Theorem books_always_balance th sp calls :
  total_budget (teams (perform_all th calls (initial sp [])))
  + total_sold (db_results (perform_all th calls (initial sp [])))
  = 400000.
Proof.
  pose proof (orderly_perform_all th calls _ (consistent_initial sp [])
                (orderly_initial sp)) as [_ _ H].
  rewrite H, <- (size_dom (D := gset string)), perform_all_dom, size_dom.
  destruct (initial_eq sp []) as (-> & _). by rewrite initial_teams_size.
Qed.

(** X11. Started on an empty result collection, every logged result is a
    sale: a closed round with a player, a winning team and a positive
    amount of at most 100000.  No result with a null team is ever
    logged. *)
Theorem logged_results_are_sales th sp calls r :
  r ∈ db_results (perform_all th calls (initial sp [])) → sale_record r.
Proof.
  pose proof (orderly_perform_all th calls _ (consistent_initial sp [])
                (orderly_initial sp)) as [_ H _].
  intros Hr. by apply (proj1 (Forall_forall _ _) H).
Qed.

Lemma logged_results_are_sales_witness :
  let r := {| player := Some "P1"; highest_bid := 50000;
              team := Some "Team A"; is_active := false |} in
  r ∈ db_results (perform_all Worker
        [CallRequest (StartBidding "P1");
         CallRequest (PlaceBid "Team A" 50000);
         CallRequest EndBidding] (initial [] []))
  ∧ sale_record r.
Proof.
  intros r.
  assert (r ∈ db_results (perform_all Worker
            [CallRequest (StartBidding "P1");
             CallRequest (PlaceBid "Team A" 50000);
             CallRequest EndBidding] (initial [] []))) as H
    by (vm_compute; apply list_elem_of_here).
  split; [exact H|].
  exact (logged_results_are_sales Worker [] _ r H).
Defined.

(** X12. Without [clear_data] the result collection only grows at its end:
    what was logged before a sequence of calls is a prefix of what is
    logged after it. *)
Theorem result_log_append_only th calls s :
  CallRequest ClearData ∉ calls →
  db_results s `prefix_of` db_results (perform_all th calls s).
Proof.
  revert s. induction calls as [|c calls IH]; intros s Hn; [done|].
  apply not_elem_of_cons in Hn as [Hc Hn]. cbn.
  trans (db_results (perform th c s)).
  - apply perform_results_prefix. congruence.
  - by apply IH.
Qed.

Lemma result_log_append_only_witness :
  (CallRequest ClearData
     ∉ [CallRequest EndBidding; CallRequest (StartBidding "P2");
        CallRequest EndBidding])
  ∧ db_results led_by_a
    `prefix_of` db_results
      (perform_all Worker
         [CallRequest EndBidding; CallRequest (StartBidding "P2");
          CallRequest EndBidding] led_by_a).
Proof.
  assert (CallRequest ClearData
    ∉ [CallRequest EndBidding; CallRequest (StartBidding "P2");
       CallRequest EndBidding]) as H.
  { intros Hin. repeat (apply elem_of_cons in Hin as [Hin|Hin];
      [discriminate|]). by apply elem_of_nil in Hin. }
  split; [exact H|].
  exact (result_log_append_only Worker _ led_by_a H).
Defined.

(** X13. [clear_data] does not cancel a round in progress.  If it runs
    while team T leads at A, the round stays as it was, and ending it
    afterwards debits T from the freshly reset budget: T is left with
    100000 - A, every other team with 100000, and the only logged result
    is that sale. *)
Theorem clear_data_then_settle th sp sr calls T A :
  let s := perform_all th calls (initial sp sr) in
  is_active (current_bid s) = true →
  team (current_bid s) = Some T →
  highest_bid (current_bid s) = A →
  current_bid (run th [ClearData] s) = current_bid s
  ∧ teams (run th [ClearData; EndBidding] s)
    = <[T := 100000 - A]> ((λ _, 100000) <$> teams s)
  ∧ db_results (run th [ClearData; EndBidding] s)
    = [ {| player := player (current_bid s); highest_bid := A;
           team := Some T; is_active := false |} ].
Proof.
  intros s Hact HT <-.
  pose proof (consistent_perform_all th calls _ (consistent_initial sp sr))
    as Hs. fold s in Hs.
  destruct (active_leader_settles s T Hs Hact HT)
    as (Hne & b & Hb & _ & _ & Hfit).
  unfold run. cbn [foldl handle].
  rewrite clear_data_eq, state_of_answer.
  match goal with |- context [scheduled th ?bs _] =>
    destruct (data_cleared_fields th bs s)
      as (Et & Ecb & _ & Er & _);
    set (s1 := scheduled th bs (data_cleared s)) in * end.
  split; [done|].
  rewrite (end_bidding_settled th s1 T 100000), state_of_answer;
    [|by rewrite Ecb|by rewrite Ecb|done
     |by rewrite Et, lookup_fmap, Hb|by rewrite Ecb].
  destruct (settled_fields th T 100000 s1) as (-> & -> & _).
  rewrite Et, Ecb, Er. cbn. unfold set_is_active. by rewrite HT.
Qed.

Lemma clear_data_then_settle_witness :
  let s := perform_all Worker [CallRequest (StartBidding "P1");
                               CallRequest (PlaceBid "Team A" 50000)]
                       (initial [] []) in
  is_active (current_bid s) = true
  ∧ teams (run Worker [ClearData; EndBidding] s)
    = <["Team A" := 100000 - 50000]> ((λ _, 100000) <$> teams s).
Proof.
  intros s. split; [vm_compute; reflexivity|].
  apply (clear_data_then_settle Worker [] []
           [CallRequest (StartBidding "P1");
            CallRequest (PlaceBid "Team A" 50000)] "Team A" 50000);
    vm_compute; reflexivity.
Defined.

(** X14. [clear_data] is idempotent on the data: a second call right after
    the first leaves budgets, players and results as the first left them,
    and neither call changes the round. *)
Theorem clear_data_twice th s :
  let s1 := state_of (clear_data th s) in
  let s2 := state_of (clear_data th s1) in
  teams s2 = teams s1
  ∧ players_collection s2 = players_collection s1
  ∧ db_results s2 = db_results s1
  ∧ current_bid s1 = current_bid s
  ∧ current_bid s2 = current_bid s1.
Proof.
  cbn zeta. rewrite !clear_data_eq, !state_of_answer.
  destruct th; cbn; repeat split;
    apply map_eq; intros t; rewrite !lookup_fmap;
    by destruct (teams s !! t).
Qed.

(** X15. The player list is never empty: in every state reached from the
    initial one through any calls there is at least one player. *)
Theorem players_never_empty th sp sr calls :
  players_collection (perform_all th calls (initial sp sr)) ≠ [].
Proof.
  pose proof (initial_players sp sr) as H. revert H.
  generalize (initial sp sr). induction calls as [|c calls IH];
    intros s Hs; [done|].
  cbn. apply IH. by apply perform_players.
Qed.

(** ** Life cycle of a round *)

(** X16. [add_player] appends: when the base price fits 64 bits, the
    player is stored at the end of the collection (a name already present
    is added again), [get_players] then returns the previous list followed
    by the new player, and budgets, round and results are as before; when
    it does not fit, the insert raises [OverflowError] and nothing
    changes. *)
Theorem add_player_then_get_players th p s :
  if fits_int64 (base_price p)
  then players_collection (state_of (add_player th p s))
       = players_collection s ++ [p]
       ∧ get_players (state_of (add_player th p s))
         = Returned (players_collection s ++ [p])
                    (state_of (add_player th p s))
       ∧ teams (state_of (add_player th p s)) = teams s
       ∧ current_bid (state_of (add_player th p s)) = current_bid s
       ∧ db_results (state_of (add_player th p s)) = db_results s
  else add_player th p s = Raised OverflowError s.
Proof.
  destruct (fits_int64 (base_price p)) eqn:Hfit.
  - rewrite (add_player_stored th p s Hfit), state_of_answer.
    by destruct th.
  - by apply add_player_overflow.
Qed.

(** X17. A round is settled at most once: whatever the state and the
    thread, a second [end_bidding] right after the first finds the round
    inactive, answers "No active bidding to end." and changes nothing. *)
Theorem end_bidding_twice th th' s :
  end_bidding th' (state_of (end_bidding th s))
  = Returned (message "No active bidding to end.")
             (state_of (end_bidding th s)).
Proof.
  apply end_bidding_inactive.
  by destruct (end_bidding_frame th s) as (_ & _ & _ & ? & _).
Qed.

(** X18. Bids need an open round: right after [end_bidding], and in the
    initial state before any [start_bidding], every [place_bid] is refused
    with "No active bidding right now". *)
Theorem place_bid_needs_open_round th th' t a :
  (∀ s, place_bid th' t a (state_of (end_bidding th s))
        = Returned (error "No active bidding right now")
                   (state_of (end_bidding th s)))
  ∧ (∀ sp sr, place_bid th' t a (initial sp sr)
              = Returned (error "No active bidding right now")
                         (initial sp sr)).
Proof.
  split.
  - intros s. apply place_bid_inactive.
    by destruct (end_bidding_frame th s) as (_ & _ & _ & ? & _).
  - intros sp sr. apply place_bid_inactive.
    by destruct (initial_eq sp sr) as (_ & -> & _).
Qed.

(** X19. The first bid of a round: right after [start_bidding], a bid is
    stored (not answered with an error dict) exactly when the team is
    registered and the amount is positive and within its budget.  Nothing
    else is consulted, the player's base price in particular. *)
Theorem first_bid_accepted_iff th th' p t a s :
  refused (place_bid th' t a (state_of (start_bidding th p s))) = false
  ↔ ∃ b, teams s !! t = Some b ∧ 0 < a ≤ b.
Proof.
  rewrite start_bidding_eq, state_of_answer.
  match goal with |- context [scheduled th ?bs ?s0] =>
    destruct (scheduled_fields th bs s0) as (Et & Ecb & _);
    set (s1 := scheduled th bs s0) in * end.
  cbn in Et, Ecb. split.
  - intros Hok.
    destruct (place_bid_cases th' t a s1)
      as [[E _]|(_ & _ & (b & Hb & Hle) & Hhi & _)]; [congruence|].
    rewrite Et in Hb. rewrite Ecb in Hhi. cbn in Hhi.
    exists b. split; [done|lia].
  - intros (b & Hb & Hpos & Hle).
    rewrite (place_bid_accepted th' t a s1 b), refused_answer;
      rewrite ?Et, ?Ecb; done.
Qed.

(** X20. In every state reached from the initial one, while the round is
    active its leading team is a registered team with a non-empty name
    whose budget covers the positive highest bid: settlement of an open
    round can never be asked for more than the leader owns. *)
Theorem leader_always_covered th sp sr calls T :
  is_active (current_bid (perform_all th calls (initial sp sr))) = true →
  team (current_bid (perform_all th calls (initial sp sr))) = Some T →
  T ≠ ""
  ∧ ∃ b, teams (perform_all th calls (initial sp sr)) !! T = Some b
         ∧ 0 < highest_bid
                 (current_bid (perform_all th calls (initial sp sr)))
               ≤ b.
Proof.
  intros Hact HT.
  pose proof (consistent_perform_all th calls _ (consistent_initial sp sr))
    as Hs.
  destruct (active_leader_settles _ T Hs Hact HT)
    as (Hne & b & Hb & Hpos & _).
  split; [done|by eauto].
Qed.

Lemma leader_always_covered_witness :
  let s := perform_all Worker [CallRequest (StartBidding "P1");
                               CallRequest (PlaceBid "Team A" 50000)]
                       (initial [] []) in
  is_active (current_bid s) = true
  ∧ team (current_bid s) = Some "Team A"
  ∧ "Team A" ≠ ""
  ∧ ∃ b, teams s !! "Team A" = Some b
         ∧ 0 < highest_bid (current_bid s) ≤ b.
Proof.
  intros s.
  assert (is_active (current_bid s) = true) as Ha
    by (vm_compute; reflexivity).
  assert (team (current_bid s) = Some "Team A") as H
    by (vm_compute; reflexivity).
  split; [exact Ha|]. split; [exact H|].
  exact (leader_always_covered Worker [] [] _ "Team A" Ha H).
Defined.

(** X21. Only [clear_data] gives money back: along any calls without
    [clear_data], made in a state reached from the initial one, no team's
    budget ever rises. *)
Theorem budgets_only_fall th sp sr calls calls' t b :
  CallRequest ClearData ∉ calls' →
  teams (perform_all th calls (initial sp sr)) !! t = Some b →
  ∃ b', teams (perform_all th calls'
                 (perform_all th calls (initial sp sr))) !! t
        = Some b'
        ∧ b' ≤ b.
Proof.
  pose proof (consistent_perform_all th calls _ (consistent_initial sp sr))
    as Hs. revert Hs. generalize (perform_all th calls (initial sp sr)).
  intros s Hs Hn. revert s b Hs.
  induction calls' as [|c calls' IH]; intros s b Hs Hb.
  - exists b. split; [done|lia].
  - apply not_elem_of_cons in Hn as [Hc Hn].
    destruct (perform_budget_falls th c s t b Hs) as (b1 & Hb1 & Hle1);
      [congruence|done|].
    destruct (IH Hn (perform th c s) b1) as (b' & Hb' & Hle');
      [by apply consistent_perform|done|].
    exists b'. split; [done|lia].
Qed.

Lemma budgets_only_fall_witness :
  let calls' := [CallRequest (StartBidding "P1");
                 CallRequest (PlaceBid "Team A" 50000);
                 CallRequest EndBidding] in
  (CallRequest ClearData ∉ calls')
  ∧ teams (perform_all Worker [] (initial [] [])) !! "Team A"
    = Some 100000
  ∧ ∃ b', teams (perform_all Worker calls'
                   (perform_all Worker [] (initial [] [])))
            !! "Team A" = Some b'
          ∧ b' ≤ 100000.
Proof.
  intros calls'.
  assert (CallRequest ClearData ∉ calls') as H.
  { intros Hin. repeat (apply elem_of_cons in Hin as [Hin|Hin];
      [discriminate|]). by apply elem_of_nil in Hin. }
  assert (teams (perform_all Worker [] (initial [] [])) !! "Team A"
          = Some 100000)
    as Hb by (vm_compute; reflexivity).
  split; [exact H|]. split; [exact Hb|].
  exact (budgets_only_fall Worker [] [] [] calls' "Team A" 100000 H Hb).
Defined.

(** ** The connection manager *)

Lemma disconnect_connections ws s :
  active_connections (state_of (disconnect ws s))
  = if bool_decide (ws ∈ active_connections s)
    then remove_first ws (active_connections s)
    else active_connections s.
Proof. unfold disconnect. step_handler. by destruct (bool_decide _). Qed.

Lemma broadcast_eq m s :
  broadcast m s
  = Returned ()
      {| teams := teams s; current_bid := current_bid s;
         players_collection := players_collection s;
         db_results := db_results s;
         active_connections := active_connections s;
         tasks := tasks s;
         sent := sent s ++ ((λ ws, (ws, m)) <$> active_connections s) |}.
Proof.
  unfold broadcast. step_handler. case_bool_decide as E.
  - destruct s. cbn in *. subst. cbn. by rewrite app_nil_r.
  - by rewrite send_all_eq.
Qed.

(** X22. [disconnect] of a socket that is not registered changes nothing,
    and for such a socket [connect] followed by [disconnect] gives back
    the very state one started from. *)
Theorem connect_then_disconnect ws s :
  ws ∉ active_connections s →
  disconnect ws s = Returned () s
  ∧ state_of (disconnect ws (state_of (connect ws s))) = s.
Proof.
  intros Hn. unfold disconnect, connect. step_handler. split.
  - by rewrite bool_decide_false.
  - rewrite bool_decide_true by (apply elem_of_app; right; by left).
    cbn. rewrite remove_first_absent by done. by destruct s.
Qed.

Lemma connect_then_disconnect_witness :
  (7%nat ∉ active_connections led_by_a)
  ∧ disconnect 7%nat led_by_a = Returned () led_by_a
  ∧ state_of (disconnect 7%nat (state_of (connect 7%nat led_by_a)))
    = led_by_a.
Proof.
  assert (7%nat ∉ active_connections led_by_a) as H
    by (vm_compute; apply not_elem_of_nil).
  split; [exact H|].
  exact (connect_then_disconnect 7%nat led_by_a H).
Defined.

(** X23. [disconnect] concerns one socket only: every other socket is
    registered afterwards exactly when it was before; and when no socket
    is registered twice, the disconnected one is gone and the list still
    has no duplicates. *)
Theorem disconnect_removes_only_that_socket ws s :
  (∀ ws', ws' ≠ ws →
     ws' ∈ active_connections (state_of (disconnect ws s))
     ↔ ws' ∈ active_connections s)
  ∧ (NoDup (active_connections s) →
     (ws ∉ active_connections (state_of (disconnect ws s)))
     ∧ NoDup (active_connections (state_of (disconnect ws s)))).
Proof.
  rewrite disconnect_connections. case_bool_decide as E.
  - split; [intros ws' Hne; by apply remove_first_other|].
    apply remove_first_nodup.
  - done.
Qed.

(** X24. [broadcast] hands the message to every socket registered when it
    starts, once per registration and in list order, and to no other; with
    no socket registered it sends nothing.  Nothing else changes. *)
Theorem broadcast_reaches_registered m s :
  ∃ s',
    broadcast m s = Returned () s'
    ∧ sent s' = sent s ++ ((λ ws, (ws, m)) <$> active_connections s)
    ∧ active_connections s' = active_connections s
    ∧ teams s' = teams s
    ∧ current_bid s' = current_bid s
    ∧ db_results s' = db_results s
    ∧ tasks s' = tasks s.
Proof. eexists. split; [apply broadcast_eq|done]. Qed.

(** X25. Once a socket has been disconnected (from a list without
    duplicates), a broadcast sends it nothing: every message in the send
    log after the broadcast either was there before or goes to another
    socket. *)
Theorem closed_socket_gets_no_broadcast ws m s x :
  NoDup (active_connections s) →
  x ∈ sent (state_of (broadcast m (state_of (disconnect ws s)))) →
  x ∈ sent s ∨ x.1 ≠ ws.
Proof.
  intros Hnd. rewrite broadcast_eq. cbn [state_of sent].
  destruct (disconnect_returns ws s) as (s' & E & _).
  assert (sent (state_of (disconnect ws s)) = sent s) as ->.
  { unfold disconnect. step_handler. by destruct (bool_decide _). }
  intros [Hin|Hin]%elem_of_app; [by left|right].
  apply list_elem_of_fmap in Hin as (ws' & -> & Hws'). cbn.
  intros ->. revert Hws'. rewrite disconnect_connections.
  case_bool_decide as Ein; [|done].
  by apply remove_first_nodup.
Qed.

Lemma closed_socket_gets_no_broadcast_witness :
  let s := state_of (connect 2%nat (state_of (connect 1%nat led_by_a))) in
  NoDup (active_connections s)
  ∧ (2%nat, clear_data_msg)
    ∈ sent (state_of (broadcast clear_data_msg
                        (state_of (disconnect 1%nat s))))
  ∧ ((2%nat, clear_data_msg) ∈ sent s ∨ (2%nat, clear_data_msg).1 ≠ 1%nat).
Proof.
  intros s.
  assert (NoDup (active_connections s)) as Hnd.
  { vm_compute. repeat constructor; intros Hin;
      repeat (apply elem_of_cons in Hin as [Hin|Hin]; [discriminate|]);
      by apply elem_of_nil in Hin. }
  assert ((2%nat, clear_data_msg)
    ∈ sent (state_of (broadcast clear_data_msg
                        (state_of (disconnect 1%nat s))))) as Hin
    by (vm_compute; apply list_elem_of_here).
  split; [exact Hnd|]. split; [exact Hin|].
  exact (closed_socket_gets_no_broadcast 1%nat clear_data_msg s _ Hnd Hin).
Defined.

(** X26. A socket opened through [websocket_endpoint] is registered: the
    next broadcast sends it the message, after the snapshot it got on
    connecting. *)
Theorem opened_socket_gets_broadcast ws m s :
  (ws, m)
  ∈ sent (state_of (broadcast m (state_of (websocket_endpoint ws s))))
  ∧ ws ∈ active_connections (state_of (websocket_endpoint ws s)).
Proof.
  rewrite broadcast_eq. cbn [state_of sent].
  assert (ws ∈ active_connections (state_of (websocket_endpoint ws s)))
    as Hin.
  { unfold websocket_endpoint. step_handler.
    destruct (is_active (current_bid s)); cbn;
      apply elem_of_app; right; by left. }
  split; [|done]. apply elem_of_app. right.
  apply list_elem_of_fmap. by exists ws.
Qed.

(** ** Behind the routes *)

Lemma worker_handle_tasks r s :
  tasks (state_of (handle Worker r s)) = tasks s.
Proof.
  destruct r as [p|t a| |]; cbn [handle].
  - by rewrite start_bidding_eq.
  - by destruct (place_bid_cases Worker t a s)
      as [(_ & text & ->)|(_ & _ & _ & _ & ->)].
  - by destruct (end_bidding_cases Worker s)
      as [[_ ->]|[(_ & _ & ->)
         |[(t & b & _ & _ & _ & _ & _ & ->)
          |[(t & b & _ & _ & _ & _ & _ & ->)
           |(t & _ & _ & _ & _ & ->)]]]].
  - by rewrite clear_data_eq.
Qed.

Lemma worker_perform_tasks c s : tasks (perform Worker c s) = tasks s.
Proof.
  destruct c as [r| | | | |p|ws|ws]; unfold perform;
    cbn [outcome_of fst]; try done.
  - apply worker_handle_tasks.
  - destruct (fits_int64 (base_price p)) eqn:Hfit.
    + by rewrite (add_player_stored Worker p s Hfit).
    + by rewrite (add_player_overflow Worker p s Hfit).
  - unfold websocket_endpoint. step_handler.
    by destruct (is_active (current_bid s)).
  - unfold disconnect. step_handler. by destruct (bool_decide _).
Qed.

(** X27. The general form of the missed reset: in a worker thread,
    [end_bidding] on an active round whose leading team is a registered,
    non-empty name and whose highest bid fits 64 bits debits the team and
    appends the result document, then ends in [RuntimeError]; the round is
    left inactive with its player, team and amount, and no broadcast is
    queued. *)
Theorem end_bidding_in_worker s t b :
  is_active (current_bid s) = true →
  team (current_bid s) = Some t →
  t ≠ "" →
  teams s !! t = Some b →
  fits_int64 (highest_bid (current_bid s)) = true →
  ∃ s',
    end_bidding Worker s = Raised RuntimeError s'
    ∧ teams s' = <[t := b - highest_bid (current_bid s)]> (teams s)
    ∧ db_results s'
      = db_results s ++ [set_is_active false (current_bid s)]
    ∧ current_bid s' = set_is_active false (current_bid s)
    ∧ tasks s' = tasks s.
Proof.
  intros Hact Ht Hne Hb Hfit. eexists.
  split; [by apply (end_bidding_settled Worker s t b)|done].
Qed.

Lemma end_bidding_in_worker_witness :
  let s := led_by_a in
  ∃ s',
    end_bidding Worker s = Raised RuntimeError s'
    ∧ teams s'
      = <["Team A" := 100000 - highest_bid (current_bid s)]> (teams s)
    ∧ db_results s'
      = db_results s ++ [set_is_active false (current_bid s)]
    ∧ current_bid s' = set_is_active false (current_bid s)
    ∧ tasks s' = tasks s.
Proof.
  intros s. apply (end_bidding_in_worker s "Team A" 100000);
    [vm_compute; reflexivity | vm_compute; reflexivity | discriminate
    | vm_compute; reflexivity | vm_compute; reflexivity].
Defined.

(** X28. What the code is written to do: on the event loop, [end_bidding]
    on such a round answers with the "sold" message, has debited the team
    and appended the result document, has queued its four broadcasts in
    order, and has reset the round to the all-clear dict. *)
Theorem end_bidding_on_event_loop s t b :
  is_active (current_bid s) = true →
  team (current_bid s) = Some t →
  t ≠ "" →
  teams s !! t = Some b →
  fits_int64 (highest_bid (current_bid s)) = true →
  ∃ s',
    end_bidding EventLoop s
    = Returned (message (sold_text (player (current_bid s)) t
                           (highest_bid (current_bid s))
                           (b - highest_bid (current_bid s)))) s'
    ∧ teams s' = <[t := b - highest_bid (current_bid s)]> (teams s)
    ∧ db_results s'
      = db_results s ++ [set_is_active false (current_bid s)]
    ∧ current_bid s' = idle_bid
    ∧ tasks s'
      = tasks s
        ++ [Bcast (end_bidding_msg (player (current_bid s)) (Some t)
                                   (highest_bid (current_bid s)));
            BcastBudgets;
            Bcast (results_update
                     (db_results s ++ [set_is_active false (current_bid s)]));
            Bcast (players_update (players_collection s))].
Proof.
  intros Hact Ht Hne Hb Hfit. eexists.
  split; [by apply (end_bidding_settled EventLoop s t b)|done].
Qed.

Lemma end_bidding_on_event_loop_witness :
  let s := led_by_a in
  ∃ s',
    end_bidding EventLoop s
    = Returned (message (sold_text (player (current_bid s)) "Team A"
                           (highest_bid (current_bid s))
                           (100000 - highest_bid (current_bid s)))) s'
    ∧ teams s'
      = <["Team A" := 100000 - highest_bid (current_bid s)]> (teams s)
    ∧ db_results s'
      = db_results s ++ [set_is_active false (current_bid s)]
    ∧ current_bid s' = idle_bid
    ∧ tasks s'
      = tasks s
        ++ [Bcast (end_bidding_msg (player (current_bid s)) (Some "Team A")
                                   (highest_bid (current_bid s)));
            BcastBudgets;
            Bcast (results_update
                     (db_results s ++ [set_is_active false (current_bid s)]));
            Bcast (players_update (players_collection s))].
Proof.
  intros s. apply (end_bidding_on_event_loop s "Team A" 100000);
    [vm_compute; reflexivity | vm_compute; reflexivity | discriminate
    | vm_compute; reflexivity | vm_compute; reflexivity].
Defined.

(** X29. Behind the routes nothing is ever broadcast: after any sequence
    of calls served in worker threads the queue of scheduled broadcasts is
    what it was, so a connected client only ever receives the snapshot
    sent when it connected. *)
Theorem worker_schedules_nothing calls s :
  tasks (perform_all Worker calls s) = tasks s.
Proof.
  revert s. induction calls as [|c calls IH]; intros s; [done|].
  cbn. unfold perform_all in IH. by rewrite IH, worker_perform_tasks.
Qed.

